(** * A TeamCity REST client (client.go): retry policy, URL resolution,
      operation facade.

    The Go code is embedded shallowly.  Every method of [*Client] is a
    computation over an explicit state: the receiver object, the state of
    the network behind the transport, and the trace of effects the method
    leaves behind (requests sent, log lines, debug prints, files written).
    A computation either returns or panics. *)

From Stdlib Require Import ZArith String Ascii List Lia.
From stdpp Require Import base option list gmap strings pretty.

Open Scope Z_scope.
Open Scope string_scope.

(** ** Outcomes and errors *)

(** A Go call either returns a value or panics (nil dereference, index out
    of range). *)
Inductive res (A : Type) : Type :=
| Ret (a : A)
| Panic (msg : string).
Arguments Ret {A} a.
Arguments Panic {A} msg.

(** A state-passing computation over [St]. *)
Definition M (St A : Type) : Type := St -> res A * St.

#[global] Instance M_ret {St} : MRet (M St) := fun A a s => (Ret a, s).

#[global] Instance M_bind {St} : MBind (M St) := fun A B k m s =>
  match m s with
  | (Ret a, s1) => k a s1
  | (Panic msg, s1) => (Panic msg, s1)
  end.

Definition panic {St A} (msg : string) : M St A := fun s => (Panic msg, s).

(** Go [error] values.  [None : option error] is the nil error. *)
Inductive error : Type :=
| errors_New (msg : string)
    (* errors.New(msg) *)
| Errorf_unmarshal (cause : error) (snippet : string)
    (* fmt.Errorf("json unmarshal: %s (%q)", cause, snippet) *)
| foreign (descr : string).
    (* an error made by net/http, io or encoding/json *)

(** ** The retry policy *)

(** The arguments of [log.Printf("Retry: %v / %v, error: %v\n", i, retries, err)]. *)
Record logline : Type := RetryLine { ll_i : Z; ll_retries : Z; ll_err : error }.

(** The process-wide logger, as seen from a state type. *)
Class Logger (St : Type) : Type := log_Printf : logline -> St -> St.

(** The body of [for i := 0; i < retries; i++ { ... }], by recursion on the
    number [n] of iterations that are left; [err] is the named result. *)
Fixpoint withRetry_loop {St} `{Logger St} (n : nat) (i retries : Z)
    (f : M St (option error)) (err : option error) (s : St)
    : res (option error) * St :=
  match n with
  | O => (Ret err, s)
  | S n' =>
      match f s with
      | (Ret (Some e), s1) =>
          withRetry_loop n' (i + 1) retries f (Some e)
            (log_Printf (RetryLine i retries e) s1)
      | (Ret None, s1) => (Ret None, s1)
      | (Panic msg, s1) => (Panic msg, s1)
      end
  end.

(** [func withRetry(retries int, f func() error) (err error)].  The guard
    [i < retries] holds for [i = 0 .. retries-1], that is for
    [Z.to_nat retries] iterations, and for none when [retries <= 0]. *)
Definition withRetry {St} `{Logger St} (retries : Z) (f : M St (option error))
    : M St (option error) :=
  fun s => withRetry_loop (Z.to_nat retries) 0 retries f None s.

(** *** Counting invocations

    A unit of work instrumented with a counter of its invocations. *)
Definition counted {St} (f : M St (option error)) : M (nat * St) (option error) :=
  fun cs => let '(r, s1) := f (snd cs) in (r, (S (fst cs), s1)).

#[global] Instance Logger_counted {St} `{Logger St} : Logger (nat * St) :=
  fun l cs => (fst cs, log_Printf l (snd cs)).

(** The state in which invocation number [k] (from 0) of [f] starts inside
    [withRetry retries f], when the invocations before it have failed. *)
Fixpoint before {St} `{Logger St} (retries : Z) (f : M St (option error))
    (k : nat) (s : St) : St :=
  match k with
  | O => s
  | S k' =>
      let s1 := before retries f k' s in
      match f s1 with
      | (Ret (Some e), s2) => log_Printf (RetryLine (Z.of_nat k') retries e) s2
      | (_, s2) => s2
      end
  end.

(** What invocation number [k] returns. *)
Definition outcome {St} `{Logger St} (retries : Z) (f : M St (option error))
    (k : nat) (s : St) : res (option error) :=
  fst (f (before retries f k s)).

(** The value of the named result [err] after [k] failed invocations. *)
Definition err_after {St} `{Logger St} (retries : Z) (f : M St (option error))
    (k : nat) (s : St) (err0 : option error) : option error :=
  match k with
  | O => err0
  | S k' => match outcome retries f k' s with
            | Ret r => r
            | Panic _ => None
            end
  end.

(** ** Strings

    Go strings are byte sequences; so are Rocq's. *)

(** [strings.HasSuffix(s, suffix)]:
    len(s) >= len(suffix) && s[len(s)-len(suffix):] == suffix. *)
Definition HasSuffix (s suffix : string) : bool :=
  (String.length suffix <=? String.length s)%nat &&
  String.eqb
    (substring (String.length s - String.length suffix) (String.length suffix) s)
    suffix.

(** [strings.TrimSuffix(s, suffix)]: s[:len(s)-len(suffix)] when [s] has the
    suffix, [s] otherwise. *)
Definition TrimSuffix (s suffix : string) : string :=
  if HasSuffix s suffix
  then substring 0 (String.length s - String.length suffix) s
  else s.

(** Lower-casing of one byte: 'A'..'Z' move to 'a'..'z'. *)
Definition lower_byte (c : ascii) : ascii :=
  let n := nat_of_ascii c in
  if ((65 <=? n) && (n <=? 90))%nat then ascii_of_nat (n + 32) else c.

(** [strings.ToLower] on the ASCII letters.  Outside ASCII the bytes are
    kept: the lower-case mapping of Unicode sends no other letter to 'h',
    't' or 'p', the only bytes [addProtocol] looks for in the result. *)
Fixpoint ToLower (s : string) : string :=
  match s with
  | EmptyString => EmptyString
  | String c s' => String (lower_byte c) (ToLower s')
  end.

(** [strings.Contains(s, substr)]: [substr] starts at some index of [s]. *)
Fixpoint Contains (s substr : string) : bool :=
  String.prefix substr s ||
  match s with
  | EmptyString => false
  | String _ s' => Contains s' substr
  end.

(** [func truncate(s string, l int) string]. *)
Definition truncate (s : string) (l : Z) : string :=
  if Z.of_nat (String.length s) >? l then substring 0 (Z.to_nat l) s else s.

(** *** Vocabulary of the statements about hosts *)

(** [mid] is the word http in some letter case. *)
Definition http_anycase (mid : string) : Prop :=
  exists a b c d,
    mid = String a (String b (String c (String d EmptyString))) /\
    (a = "h"%char \/ a = "H"%char) /\ (b = "t"%char \/ b = "T"%char) /\
    (c = "t"%char \/ c = "T"%char) /\ (d = "p"%char \/ d = "P"%char).

(** [s] contains the substring http in some letter case. *)
Definition contains_http_anycase (s : string) : Prop :=
  exists pre mid post, s = pre +:+ mid +:+ post /\ http_anycase mid.

(** [h'] is [h] with one trailing slash stripped, if it has one. *)
Definition one_slash_stripped (h h' : string) : Prop :=
  h = h' +:+ "/" \/ (h' = h /\ forall x, h <> x +:+ "/").

(** ** JSON documents, as [encoding/json] writes them *)

#[local] Set Warnings "-register-all".
Inductive json : Type :=
| JNull
| JBool (b : bool)
| JNumber (n : Z)
| JString (s : string)
| JArray (items : list json)
| JObject (fields : list (string * json)).

(** A Go slice is nil or holds a list of elements; [len] of the nil slice
    is 0 and ranging over it runs no iteration. *)
Definition slice (A : Type) : Type := option (list A).

Definition elems {A} (sl : slice A) : list A :=
  match sl with
  | Some l => l
  | None => []
  end.

(** Modelled from the spec: the declaration of [oneProperty] is not part of
    the sources at hand.  It is the name/value pair of section 3, built
    positionally as [oneProperty{k, v}], read as [prop.Name] and
    [prop.Value], and written as an object with the keys "name" and
    "value". *)
Record oneProperty : Type := mkOneProperty { Name : string; Value : string }.

Definition marshal_oneProperty (p : oneProperty) : json :=
  JObject [("name", JString (Name p)); ("value", JString (Value p))].

(** The document of the property entry of a key and a value. *)
Definition entry (kv : string * string) : json :=
  JObject [("name", JString kv.1); ("value", JString kv.2)].

(** The anonymous struct [jsonQuery] of [QueueBuild]. *)
Record jsonQuery : Type := mkJsonQuery {
  jq_BuildTypeID : string;           (* `json:"buildTypeId,omitempty"` *)
  jq_Properties_Property : slice oneProperty;
                                     (* `json:"properties"` / `json:"property,omitempty"` *)
  jq_BranchName : string;            (* `json:"branchName,omitempty"` *)
  jq_Personal : string               (* `json:"personal,omitempty"` *)
}.

(** A string field tagged omitempty is left out when it is empty. *)
Definition omitempty_string (key val : string) : list (string * json) :=
  if String.eqb val "" then [] else [(key, JString val)].

(** A slice field tagged omitempty is left out when its length is 0. *)
Definition omitempty_slice {A} (key : string) (enc : A -> json) (val : slice A)
    : list (string * json) :=
  match elems val with
  | [] => []
  | l => [(key, JArray (map enc l))]
  end.

(** The document [json.Marshal(jsonQuery)] writes: fields in declaration
    order under their tags. *)
Definition marshal_jsonQuery (q : jsonQuery) : json :=
  JObject
    (omitempty_string "buildTypeId" (jq_BuildTypeID q) ++
     [("properties",
       JObject (omitempty_slice "property" marshal_oneProperty
                  (jq_Properties_Property q)))] ++
     omitempty_string "branchName" (jq_BranchName q) ++
     omitempty_string "personal" (jq_Personal q)).

(** The document of the [map[string]interface{}] body of [CancelBuild]
    (map keys are written in sorted order). *)
Definition marshal_cancel (comment : string) : json :=
  JObject [("buildCancelRequest",
            JObject [("comment", JString comment);
                     ("readIntoQueue", JBool true)])].

(** ** Decoding targets

    The local struct types the operations decode into, over the entity
    types [B] (Build), [C] (Change), [P] (ProblemOccurrence) and [T]
    (TestOccurrence). *)

(** [struct { Count int; Build []*Build }] of [SearchBuild] and
    [GetQueuedBuilds]. *)
Record respStruct (B : Type) : Type := mkRespStruct {
  rs_Count : Z;
  rs_Build : slice (option B)
}.
Arguments mkRespStruct {B}.
Arguments rs_Count {B}.
Arguments rs_Build {B}.

(** [type builds struct { Count int; Href, NextHref string; Build []Build }]
    of [GetBuildID]. *)
Record builds (B : Type) : Type := mkBuilds {
  bs_Count : Z;
  bs_Href : string;
  bs_NextHref : string;
  bs_Build : slice B
}.
Arguments mkBuilds {B}.
Arguments bs_Count {B}.
Arguments bs_Href {B}.
Arguments bs_NextHref {B}.
Arguments bs_Build {B}.

(** [struct { Property []oneProperty `json:"property,omitempty"` }] of
    [GetBuildProperties]. *)
Record response : Type := mkResponse { resp_Property : slice oneProperty }.

(** [struct { Change []Change }] of [GetChanges]. *)
Record changes (C : Type) : Type := mkChanges { ch_Change : slice C }.
Arguments mkChanges {C}.
Arguments ch_Change {C}.

(** [struct { Count int64; Default bool; ProblemOccurrence []ProblemOccurrence }]
    of [GetProblems]. *)
Record problems (P : Type) : Type := mkProblems {
  pr_Count : Z;
  pr_Default : bool;
  pr_ProblemOccurrence : slice P
}.
Arguments mkProblems {P}.
Arguments pr_Count {P}.
Arguments pr_Default {P}.
Arguments pr_ProblemOccurrence {P}.

(** [struct { Count int64; HREF string; TestOccurrence []TestOccurrence }]
    of [GetTests]. *)
Record tests (T : Type) : Type := mkTests {
  ts_Count : Z;
  ts_HREF : string;
  ts_TestOccurrence : slice T
}.
Arguments mkTests {T}.
Arguments ts_Count {T}.
Arguments ts_HREF {T}.
Arguments ts_TestOccurrence {T}.

(** ** The environment of the client

    What the client calls but does not define: the HTTP transport, the
    JSON codec of the standard library, and the entity types that the
    package declares in another file. *)

(** An [*http.Request] as [doNotJSONRequest] sets it up. *)
Record Request (bytes : Type) : Type := mkRequest {
  req_method : string;
  req_url : string;
  req_body : option bytes;
  req_basicAuth : option (string * string);
  req_header : list (string * string)
}.
Arguments mkRequest {bytes}.
Arguments req_method {bytes}.
Arguments req_url {bytes}.
Arguments req_body {bytes}.
Arguments req_basicAuth {bytes}.
Arguments req_header {bytes}.

(** What [c.HTTPClient.Do(req)] followed by [ioutil.ReadAll(resp.Body)]
    yields: an error of [Do], or the bytes read and the error of the
    read, if any. *)
Inductive HttpResult (bytes : Type) : Type :=
| DoError (e : error)
| Response (body : bytes) (readErr : option error).
Arguments DoError {bytes}.
Arguments Response {bytes}.

Class Env : Type := {
  (** [[]byte] payloads; nil and empty payloads behave alike in every call
      of the client. *)
  bytes : Type;
  bytes_empty : bytes;
  (** [string(b)] *)
  bytes_string : bytes -> string;
  (** the state of the servers and connections behind a transport *)
  netstate : Type;
  (** whether [http.NewRequest] accepts the method and URL *)
  NewRequest_ok : string -> string -> bool;
  (** the bytes [json.Marshal] writes for a value whose document is given *)
  json_Marshal : json -> bytes;
  (** the iteration order of [range] over a [map[string]string] *)
  range_map : gmap string string -> list (string * string);
  range_map_perm : forall m, range_map m ≡ₚ map_to_list m;
  (** the entity types [Build], [Change], [ProblemOccurrence] and
      [TestOccurrence], the numeric field [ID] of a build and the method
      [convertInputs], all declared in a file of the package that is not
      among the sources at hand *)
  Build : Type;
  Build_zero : Build;                 (* Build{} *)
  Build_ID : Build -> Z;
  convertInputs : Build -> Build;
  Change : Type;
  ProblemOccurrence : Type;
  TestOccurrence : Type;
  (** [json.Unmarshal(data, &v)] for each target the client decodes into:
      the error, if any, and the target as the call leaves it. *)
  Unmarshal_Build : bytes -> option Build -> option error * option Build;
  Unmarshal_respStruct :
    bytes -> respStruct Build -> option error * respStruct Build;
  Unmarshal_builds :
    bytes -> option (builds Build) -> option error * option (builds Build);
  Unmarshal_response : bytes -> response -> option error * response;
  Unmarshal_changes : bytes -> changes Change -> option error * changes Change;
  Unmarshal_problems :
    bytes -> problems ProblemOccurrence -> option error * problems ProblemOccurrence;
  Unmarshal_tests :
    bytes -> tests TestOccurrence -> option error * tests TestOccurrence
}.

Section Model.
Context {E : Env}.

(** An [*http.Client]: what its [Do] and the read of the body answer to
    a request, and how the network moves on. *)
Definition http_Client : Type :=
  Request bytes -> netstate -> HttpResult bytes * netstate.

(** [type Client struct].  A nil [HTTPClient] is [None]. *)
Record Client : Type := mkClient {
  HTTPClient : option http_Client;
  username : string;
  password : string;
  host : string;
  debug : bool
}.

(** What an operation leaves behind. *)
Inductive event : Type :=
| EvSent (req : Request bytes)      (* a request handed to the transport *)
| EvPrintf (authURL : string)       (* fmt.Printf("Sending request to %s\n", authURL) *)
| EvLog (l : logline)               (* log.Printf of the retry loop *)
| EvWriteFile (data : bytes).       (* ioutil.WriteFile("/tmp/mama-<time>.json", data, 0644) *)

(** The receiver [c], the network, and the trace of effects, oldest
    first. *)
Record State : Type := mkState {
  this : Client;
  net : netstate;
  trace : list event
}.

Definition emit (e : event) : M State unit :=
  fun s => (Ret tt, mkState (this s) (net s) (trace s ++ [e])).

Definition getThis : M State Client := fun s => (Ret (this s), s).

#[global] Instance Logger_State : Logger State :=
  fun l s => mkState (this s) (net s) (trace s ++ [EvLog l]).

(** The logger seen from a closure's state: the captured variable and
    the rest. *)
#[global] Instance Logger_captured {T} : Logger (T * State) :=
  fun l ts => (fst ts, log_Printf l (snd ts)).

(** [func New(host, username, password string) *Client] over
    [http.DefaultClient]. *)
Definition New (DefaultClient : http_Client) (host username password : string)
    : Client :=
  {| HTTPClient := Some DefaultClient;
     username := username;
     password := password;
     host := host;
     debug := false |}.

(** [func (c *Client) SetDebug(debug bool)]. *)
Definition SetDebug (d : bool) : M State unit :=
  fun s =>
    let c := this s in
    (Ret tt,
     mkState (mkClient (HTTPClient c) (username c) (password c) (host c) d)
             (net s) (trace s)).

(** [func (c *Client) addProtocol(path string) string]. *)
Definition addProtocol (c : Client) (path : string) : string :=
  let host := host c in
  let host := if HasSuffix host "/" then TrimSuffix host "/" else host in
  let prefix := "https://" in
  let prefix := if Contains (ToLower host) "http" then "" else prefix in
  prefix +:+ host +:+ path.

(** [http.NewRequest(method, url, body)]; [None] is the nil request that
    comes with an error. *)
Definition http_NewRequest (method url : string) (body : option bytes)
    : option (Request bytes) :=
  if NewRequest_ok method url
  then Some (mkRequest method url body None [])
  else None.

Definition SetBasicAuth (req : Request bytes) (username password : string)
    : Request bytes :=
  mkRequest (req_method req) (req_url req) (req_body req)
    (Some (username, password)) (req_header req).

Definition Header_Add (req : Request bytes) (key value : string)
    : Request bytes :=
  mkRequest (req_method req) (req_url req) (req_body req)
    (req_basicAuth req) (req_header req ++ [(key, value)]).

(** [c.HTTPClient.Do(req)] and the read of the whole body. *)
Definition Do (cl : http_Client) (req : Request bytes)
    : M State (HttpResult bytes) :=
  fun s =>
    let '(r, n) := cl req (net s) in
    (Ret r, mkState (this s) n (trace s ++ [EvSent req])).

(** [func (c *Client) doNotJSONRequest(method, path string, data interface{})
    ([]byte, error)].  [data] is the document of the value to send, [None]
    for nil.  The values the client sends are structs and maps of strings
    and booleans: each has a document, [json.Marshal] returns no error on
    them, and the branch that wraps such an error is never taken. *)
Definition doNotJSONRequest (method path : string) (data : option json)
    : M State (bytes * option error) :=
  c ← getThis;
  let authURL := addProtocol c path in
  (if debug c then emit (EvPrintf authURL) else mret tt);;
  let body := json_Marshal <$> data in
  match http_NewRequest method authURL body with
  | None => panic "invalid memory address or nil pointer dereference"
  | Some req =>
      let req := SetBasicAuth req (username c) (password c) in
      let req := Header_Add req "Accept" "application/json" in
      let req :=
        match body with
        | Some _ => Header_Add req "Content-Type" "application/json"
        | None => req
        end in
      match HTTPClient c with
      | None => panic "invalid memory address or nil pointer dereference"
      | Some cl =>
          r ← Do cl req;
          match r with
          | DoError err => mret (bytes_empty, Some err)
          | Response b rerr => mret (b, rerr)
          end
      end
  end.

(** [func (c *Client) doRequest(method, path string, data, v interface{})
    error].  [v] is the decoder of the target behind the pointer, [None]
    for nil; the target is passed in and handed back as the call leaves
    it. *)
Definition doRequest {T} (method path : string) (data : option json)
    (v : option (bytes -> T -> option error * T)) (target : T)
    : M State (option error * T) :=
  '(jsonCnt, err) ← doNotJSONRequest method path data;
  match err with
  | Some e => mret (Some e, target)
  | None =>
      emit (EvWriteFile jsonCnt);;
      match v with
      | Some unmarshal =>
          let '(uerr, target') := unmarshal jsonCnt target in
          match uerr with
          | Some e =>
              mret (Some (Errorf_unmarshal e
                            (truncate (bytes_string jsonCnt) 1000)),
                    target')
          | None => mret (None, target')
          end
      | None => mret (None, target)
      end
  end.

(** A closure [func() error { return c.doRequest(..., &x) }]: it runs on
    the captured variable [x] and the state. *)
Definition closure {T} (call : T -> M State (option error * T))
    : M (T * State) (option error) :=
  fun ts =>
    match call (fst ts) (snd ts) with
    | (Ret (err, x), s1) => (Ret err, (x, s1))
    | (Panic msg, s1) => (Panic msg, (fst ts, s1))
    end.

(** Running [withRetry(retries, closure)] in a method body: the error and
    the captured variable as the loop leaves it. *)
Definition retrying {T} (retries : Z) (call : T -> M State (option error * T))
    (x : T) : M State (option error * T) :=
  fun s =>
    match withRetry retries (closure call) (x, s) with
    | (Ret err, (x1, s1)) => (Ret (err, x1), s1)
    | (Panic msg, (_, s1)) => (Panic msg, s1)
    end.

(** [append(sl, x)]. *)
Definition append {A} (sl : slice A) (x : A) : slice A :=
  Some (elems sl ++ [x])%list.

(** [build.convertInputs()] through a [*Build]: the method works on the
    fields of its receiver, so a nil receiver panics. *)
Definition call_convertInputs (build : option Build) : res (option Build) :=
  match build with
  | Some b => Ret (Some (convertInputs b))
  | None => Panic "invalid memory address or nil pointer dereference"
  end.

(** [for _, build := range l { build.convertInputs() }]. *)
Fixpoint convertInputs_each (l : list (option Build)) : res (list (option Build)) :=
  match l with
  | [] => Ret []
  | build :: l' =>
      match call_convertInputs build with
      | Panic msg => Panic msg
      | Ret b =>
          match convertInputs_each l' with
          | Panic msg => Panic msg
          | Ret bs => Ret (b :: bs)
          end
      end
  end.

Definition lift {A} (r : res A) : M State A := fun s => (r, s).

(** The query [QueueBuild] builds before it sends it. *)
Definition QueueBuild_query (buildTypeID branchName : string)
    (properties : gmap string string) : jsonQuery :=
  let q := mkJsonQuery "" None "" "" in
  let q := mkJsonQuery buildTypeID (jq_Properties_Property q)
             (jq_BranchName q) (jq_Personal q) in
  let q := mkJsonQuery (jq_BuildTypeID q) (jq_Properties_Property q)
             (jq_BranchName q) "true" in
  let q :=
    if negb (String.eqb branchName "")
    then mkJsonQuery (jq_BuildTypeID q) (jq_Properties_Property q)
           branchName (jq_Personal q)
    else q in
  foldl (fun q kv =>
           mkJsonQuery (jq_BuildTypeID q)
             (append (jq_Properties_Property q) (mkOneProperty kv.1 kv.2))
             (jq_BranchName q) (jq_Personal q))
        q (range_map properties).

Definition QueueBuild_path : string := "/httpAuth/app/rest/buildQueue".

(** [func (c *Client) QueueBuild(buildTypeID, branchName string,
    properties map[string]string) ( *Build, error)]. *)
Definition QueueBuild (buildTypeID branchName : string)
    (properties : gmap string string) : M State (option Build * option error) :=
  let jsonQuery := QueueBuild_query buildTypeID branchName properties in
  let build := Some Build_zero in
  let retries := 8 in
  '(err, build) ← retrying retries
      (doRequest "POST" QueueBuild_path
         (Some (marshal_jsonQuery jsonQuery)) (Some Unmarshal_Build))
      build;
  match err with
  | Some e => mret (None, Some e)
  | None =>
      build ← lift (call_convertInputs build);
      mret (build, None)
  end.

Definition SearchBuild_path (locator : string) : string :=
  "/httpAuth/app/rest/builds/?locator=" +:+ locator +:+
  "&fields=count,build(*,tags(tag),triggered(*),properties(property),problemOccurrences(*,problemOccurrence(*)),testOccurrences(*,testOccurrence(*)),changes(*,change(*)))".

(** The loop over the decoded builds; the nil slice has none. *)
Definition convert_builds (sl : slice (option Build))
    : res (slice (option Build)) :=
  match sl with
  | None => Ret None
  | Some l =>
      match convertInputs_each l with
      | Ret l' => Ret (Some l')
      | Panic msg => Panic msg
      end
  end.

(** [func (c *Client) SearchBuild(locator string) ([]*Build, error)]. *)
Definition SearchBuild (locator : string)
    : M State (slice (option Build) * option error) :=
  let path := SearchBuild_path locator in
  let respStruct := mkRespStruct 0 None in
  let retries := 8 in
  '(err, respStruct) ← retrying retries
      (doRequest "GET" path None (Some Unmarshal_respStruct)) respStruct;
  match err with
  | Some e => mret (None, Some e)
  | None =>
      bs ← lift (convert_builds (rs_Build respStruct));
      mret (bs, None)
  end.

Definition GetQueuedBuilds_path (locator : string) : string :=
  "/httpAuth/app/rest/buildQueue?locator=" +:+ locator +:+
  "&fields=" +:+ "count," +:+ "build(" +:+ "*," +:+ "tags(tag)," +:+
  "triggered(*)," +:+ "properties(property)," +:+
  "problemOccurrences(*,problemOccurrence(*))," +:+
  "testOccurrences(*,testOccurrence(*))," +:+ "changes(*,change(*))" +:+ ")".

(** [func (c *Client) GetQueuedBuilds(locator string) ([]*Build, error)]. *)
Definition GetQueuedBuilds (locator : string)
    : M State (slice (option Build) * option error) :=
  let path := GetQueuedBuilds_path locator in
  let respStruct := mkRespStruct 0 None in
  let retries := 8 in
  '(err, respStruct) ← retrying retries
      (doRequest "GET" path None (Some Unmarshal_respStruct)) respStruct;
  match err with
  | Some e => mret (None, Some e)
  | None =>
      bs ← lift (convert_builds (rs_Build respStruct));
      mret (bs, None)
  end.

Definition GetBuild_path (buildID : string) : string :=
  "/httpAuth/app/rest/builds/id:" +:+ buildID +:+
  "?fields=*,tags(tag),triggered(*),properties(property),problemOccurrences(*,problemOccurrence(*)),testOccurrences(*,testOccurrence(*)),changes(*,change(*))".

(** [func (c *Client) GetBuild(buildID string) ( *Build, error)]. *)
Definition GetBuild (buildID : string) : M State (option Build * option error) :=
  let path := GetBuild_path buildID in
  let build : option Build := None in
  let retries := 8 in
  '(err, build) ← retrying retries
      (doRequest "GET" path None (Some Unmarshal_Build)) build;
  match err with
  | Some e => mret (None, Some e)
  | None =>
      match build with
      | None => mret (None, Some (errors_New "build not found"))
      | Some b => mret (Some b, None)
      end
  end.

Definition GetBuildID_path (buildTypeID branchName buildNumber : string) : string :=
  "/httpAuth/app/rest/buildTypes/id:" +:+ buildTypeID +:+
  "/builds?locator=branch:" +:+ branchName +:+ ",number:" +:+ buildNumber +:+
  ",count:1".

(** [func (c *Client) GetBuildID(buildTypeID, branchName, buildNumber string)
    (string, error)]. *)
Definition GetBuildID (buildTypeID branchName buildNumber : string)
    : M State (string * option error) :=
  let path := GetBuildID_path buildTypeID branchName buildNumber in
  let build : option (builds Build) := None in
  let retries := 8 in
  '(err, build) ← retrying retries
      (doRequest "GET" path None (Some Unmarshal_builds)) build;
  match err with
  | Some e => mret ("ID not found", Some e)
  | None =>
      match build with
      | None => mret ("ID not found", Some (errors_New "build not found"))
      | Some bs =>
          match elems (bs_Build bs) with
          | [] => panic "index out of range [0] with length 0"
          | b0 :: _ => mret (pretty (Build_ID b0), None)
          end
      end
  end.

(** [m := make(map[string]string); for _, prop := range l
    { m[prop.Name] = prop.Value }]. *)
Definition properties_map (l : list oneProperty) : gmap string string :=
  foldl (fun m prop => <[Name prop := Value prop]> m) ∅ l.

Definition GetBuildProperties_path (buildID : string) : string :=
  "/httpAuth/app/rest/builds/id:" +:+ buildID +:+ "/resulting-properties".

(** The value of the last entry of [l] that bears the name [n]. *)
Definition last_value (n : string) (l : list oneProperty) : option string :=
  Value <$> last (List.filter (fun prop => String.eqb (Name prop) n) l).

(** [func (c *Client) GetBuildProperties(buildID string)
    (map[string]string, error)]; the nil map is [None]. *)
Definition GetBuildProperties (buildID : string)
    : M State (option (gmap string string) * option error) :=
  let path := GetBuildProperties_path buildID in
  let response := mkResponse None in
  let retries := 8 in
  '(err, response) ← retrying retries
      (doRequest "GET" path None (Some Unmarshal_response)) response;
  match err with
  | Some e => mret (None, Some e)
  | None => mret (Some (properties_map (elems (resp_Property response))), None)
  end.

Definition GetChanges_path (path : string) : string := path +:+ ",count:99999".

(** [func (c *Client) GetChanges(path string) ([]Change, error)]. *)
Definition GetChanges (path : string) : M State (slice Change * option error) :=
  let changes := mkChanges None in
  let path := GetChanges_path path in
  '(err, changes) ← doRequest "GET" path None (Some Unmarshal_changes) changes;
  match err with
  | Some e => mret (None, Some e)
  | None =>
      match ch_Change changes with
      | None => mret (None, Some (errors_New "changes not found"))
      | Some l => mret (Some l, None)
      end
  end.

Definition GetProblems_path (path : string) (count : Z) : string :=
  path +:+ (",count:" +:+ pretty count +:+ "&fields=*,problemOccurrence(*,details)").

(** [func (c *Client) GetProblems(path string, count int64)
    ([]ProblemOccurrence, error)]. *)
Definition GetProblems (path : string) (count : Z)
    : M State (slice ProblemOccurrence * option error) :=
  let problems := mkProblems 0 false None in
  let path := GetProblems_path path count in
  '(err, problems) ← doRequest "GET" path None (Some Unmarshal_problems) problems;
  match err with
  | Some e => mret (None, Some e)
  | None =>
      match pr_ProblemOccurrence problems with
      | None => mret (None, Some (errors_New "problemOccurrence list not found"))
      | Some l => mret (Some l, None)
      end
  end.

Definition GetTests_path (path : string) (count : Z)
    (failingOnly ignoreMuted : bool) : string :=
  let path := if ignoreMuted then path +:+ ",currentlyMuted:false" else path in
  let path := if failingOnly then path +:+ ",status:FAILURE" else path in
  path +:+ (",count:" +:+ pretty count).

(** [func (c *Client) GetTests(path string, count int64, failingOnly bool,
    ignoreMuted bool) ([]TestOccurrence, error)]. *)
Definition GetTests (path : string) (count : Z) (failingOnly ignoreMuted : bool)
    : M State (slice TestOccurrence * option error) :=
  let tests := mkTests 0 "" None in
  let path := GetTests_path path count failingOnly ignoreMuted in
  '(err, tests) ← doRequest "GET" path None (Some Unmarshal_tests) tests;
  match err with
  | Some e => mret (None, Some e)
  | None => mret (ts_TestOccurrence tests, None)
  end.

Definition CancelBuild_path (buildID : Z) : string :=
  "/httpAuth/app/rest/id:" +:+ pretty buildID.

(** [func (c *Client) CancelBuild(buildID int64, comment string) error]. *)
Definition CancelBuild (buildID : Z) (comment : string) : M State (option error) :=
  let body := marshal_cancel comment in
  '(err, _) ← doRequest (T:=unit) "POST" (CancelBuild_path buildID)
      (Some body) None tt;
  mret err.

Definition GetBuildLog_path (buildID : string) : string :=
  "/httpAuth/downloadBuildLog.html?buildId=" +:+ buildID.

(** [func (c *Client) GetBuildLog(buildID string) (string, error)]. *)
Definition GetBuildLog (buildID : string) : M State (string * option error) :=
  '(cnt, err) ← doNotJSONRequest "GET" (GetBuildLog_path buildID) None;
  mret (bytes_string cnt, err).

(** *** The exported methods, as calls *)

Inductive call : Type :=
| CallSetDebug (d : bool)
| CallQueueBuild (buildTypeID branchName : string) (properties : gmap string string)
| CallSearchBuild (locator : string)
| CallGetQueuedBuilds (locator : string)
| CallGetBuild (buildID : string)
| CallGetBuildID (buildTypeID branchName buildNumber : string)
| CallGetBuildProperties (buildID : string)
| CallGetChanges (path : string)
| CallGetProblems (path : string) (count : Z)
| CallGetTests (path : string) (count : Z) (failingOnly ignoreMuted : bool)
| CallCancelBuild (buildID : Z) (comment : string)
| CallGetBuildLog (buildID : string).

Definition forget {A} (m : M State A) : M State unit := m;; mret tt.

(** Running a call for its effect on the state. *)
Definition exec (op : call) : M State unit :=
  match op with
  | CallSetDebug d => SetDebug d
  | CallQueueBuild bt br props => forget (QueueBuild bt br props)
  | CallSearchBuild l => forget (SearchBuild l)
  | CallGetQueuedBuilds l => forget (GetQueuedBuilds l)
  | CallGetBuild id => forget (GetBuild id)
  | CallGetBuildID bt br n => forget (GetBuildID bt br n)
  | CallGetBuildProperties id => forget (GetBuildProperties id)
  | CallGetChanges p => forget (GetChanges p)
  | CallGetProblems p n => forget (GetProblems p n)
  | CallGetTests p n fo im => forget (GetTests p n fo im)
  | CallCancelBuild id cm => forget (CancelBuild id cm)
  | CallGetBuildLog id => forget (GetBuildLog id)
  end.

(** The number of requests handed to the transport in a trace. *)
Definition is_sent (e : event) : bool :=
  match e with EvSent _ => true | _ => false end.

Definition sent (tr : list event) : nat := length (List.filter is_sent tr).

(** *** Vocabulary of the statements *)

(** The request [doNotJSONRequest] hands to the transport. *)
Definition the_request (c : Client) (method path : string) (body : option bytes)
    : Request bytes :=
  mkRequest method (addProtocol c path) body (Some (username c, password c))
    (("Accept", "application/json") ::
     match body with
     | Some _ => [("Content-Type", "application/json")]
     | None => []
     end).

Definition debug_print (c : Client) (path : string) : list event :=
  if debug c then [EvPrintf (addProtocol c path)] else [].

(** In state [s] the request can be built and the transport answers it
    with [r], leaving the network in [n']. *)
Definition replies (s : State) (method path : string) (body : option bytes)
    (r : HttpResult bytes) (n' : netstate) : Prop :=
  exists cl,
    HTTPClient (this s) = Some cl /\
    NewRequest_ok method (addProtocol (this s) path) = true /\
    cl (the_request (this s) method path body) (net s) = (r, n').

(** The state after that exchange. *)
Definition after_reply (s : State) (method path : string) (body : option bytes)
    (n' : netstate) : State :=
  mkState (this s) n'
    (trace s ++ debug_print (this s) path ++
     [EvSent (the_request (this s) method path body)]).

(** The transport [cl] of the client fails on every request, from the
    network state of [s] on; [Inv] holds of the network states it goes
    through. *)
Definition down_with (cl : http_Client) (Inv : netstate -> Prop) (s : State)
    : Prop :=
  HTTPClient (this s) = Some cl /\ Inv (net s) /\
  (forall req n, Inv n -> exists e n', cl req n = (DoError e, n') /\ Inv n').

Definition down (s : State) : Prop := exists cl Inv, down_with cl Inv s.

(** A unit of work that, from a state in [P], fails having sent one more
    request, and leaves the captured variable alone and the state in
    [P]. *)
Definition one_failed_attempt {T} (P : State -> Prop)
    (call : T -> M State (option error * T)) : Prop :=
  forall x s, P s ->
    exists e s', call x s = (Ret (Some e, x), s') /\ P s' /\
                 sent (trace s') = S (sent (trace s)).


(** A computation that does not write to the receiver. *)
Definition frames {A} (m : M State A) : Prop :=
  forall s, this (m s).2 = this s.

(** The state once the payload [b] has been written to the scratch
    file. *)
Definition written (s : State) (b : bytes) : State :=
  mkState (this s) (net s) (trace s ++ [EvWriteFile b]).

(** Under the retry loop, from attempt number [i] on: the transport fails
    [k] attempts, each logged by the loop, and answers the next one with the
    payload [b], read without error; [s'] is the state after that
    exchange. *)
Inductive reply_after (method path : string) (body : option bytes) (retries : Z)
    : Z -> nat -> State -> bytes -> State -> Prop :=
| reply_now i s b n' :
    replies s method path body (Response b None) n' ->
    reply_after method path body retries i O s b
      (after_reply s method path body n')
| reply_later i k s e n' b s' :
    replies s method path body (DoError e) n' ->
    reply_after method path body retries (i + 1) k
      (log_Printf (RetryLine i retries e) (after_reply s method path body n')) b s' ->
    reply_after method path body retries i (S k) s b s'.

(** Method and path of the request of a call. *)
Definition request_line (op : call) : option (string * string) :=
  match op with
  | CallSetDebug _ => None
  | CallQueueBuild _ _ _ => Some ("POST", QueueBuild_path)
  | CallSearchBuild l => Some ("GET", SearchBuild_path l)
  | CallGetQueuedBuilds l => Some ("GET", GetQueuedBuilds_path l)
  | CallGetBuild id => Some ("GET", GetBuild_path id)
  | CallGetBuildID bt br n => Some ("GET", GetBuildID_path bt br n)
  | CallGetBuildProperties id => Some ("GET", GetBuildProperties_path id)
  | CallGetChanges p => Some ("GET", GetChanges_path p)
  | CallGetProblems p n => Some ("GET", GetProblems_path p n)
  | CallGetTests p n fo im => Some ("GET", GetTests_path p n fo im)
  | CallCancelBuild id _ => Some ("POST", CancelBuild_path id)
  | CallGetBuildLog id => Some ("GET", GetBuildLog_path id)
  end.

(** [http.NewRequest] accepts the request of the call. *)
Definition buildable (op : call) (c : Client) : Prop :=
  forall method path, request_line op = Some (method, path) ->
    NewRequest_ok method (addProtocol c path) = true.

(** The number of requests a call hands to the transport from [s]. *)
Definition attempts (op : call) (s : State) : nat :=
  (sent (trace (exec op s).2) - sent (trace s))%nat.

(** The number of attempts each call makes against a transport that is
    down: 8 under the retry policy, 1 outside it. *)
Definition attempts_when_down (op : call) : nat :=
  match op with
  | CallSetDebug _ => 0
  | CallQueueBuild _ _ _ | CallSearchBuild _ | CallGetQueuedBuilds _
  | CallGetBuild _ | CallGetBuildID _ _ _ | CallGetBuildProperties _ => 8
  | CallGetChanges _ | CallGetProblems _ _ | CallGetTests _ _ _ _
  | CallCancelBuild _ _ | CallGetBuildLog _ => 1
  end.

(** Every operation that talks to the server runs under the retry policy
    with the bound 8: against a transport that is down it makes 8
    attempts. *)
Definition every_operation_retried : Prop :=
  forall (op : call) (s : State),
    is_Some (request_line op) -> down s -> buildable op (this s) ->
    attempts op s = 8%nat.

(** *** Vocabulary of the further properties *)

(** The document a call sends with its request, if it sends one. *)
Definition request_body (op : call) : option json :=
  match op with
  | CallQueueBuild bt br props =>
      Some (marshal_jsonQuery (QueueBuild_query bt br props))
  | CallCancelBuild _ comment => Some (marshal_cancel comment)
  | _ => None
  end.

(** What a call may leave in the trace, for the receiver [c]: its own
    request, the print of its URL when debug is on, a log line of the
    retry loop when the call is under the retry policy, a scratch file
    unless the call is [GetBuildLog]. *)
Definition footprint (c : Client) (op : call) (ev : event) : Prop :=
  match request_line op with
  | None => False
  | Some (method, path) =>
      match ev with
      | EvSent req =>
          req = the_request c method path (json_Marshal <$> request_body op)
      | EvPrintf authURL => debug c = true /\ authURL = addProtocol c path
      | EvLog l =>
          attempts_when_down op = 8%nat /\ ll_retries l = 8 /\ 0 <= ll_i l < 8
      | EvWriteFile _ => forall id, op <> CallGetBuildLog id
      end
  end.

(** From [s] to [s'] the trace grows by events that satisfy [Q]. *)
Definition grows_by (Q : event -> Prop) (s s' : State) : Prop :=
  exists new, trace s' = (trace s ++ new)%list /\ Forall Q new.

(** Under the retry loop, from attempt number [i] on: the transport fails
    one attempt after the other with the errors [errs], each logged by the
    loop; [s'] is the state after the last of them. *)
Inductive failing (method path : string) (body : option bytes) (retries : Z)
    : Z -> list error -> State -> State -> Prop :=
| failing_nil i s : failing method path body retries i [] s s
| failing_cons i e errs s n' s' :
    replies s method path body (DoError e) n' ->
    failing method path body retries (i + 1) errs
      (log_Printf (RetryLine i retries e) (after_reply s method path body n')) s' ->
    failing method path body retries i (e :: errs) s s'.

(** The transport [cl] of the client answers every request with the
    payload [b], read without error, from the network state of [s] on;
    [Inv] holds of the network states it goes through. *)
Definition answers_with (cl : http_Client) (Inv : netstate -> Prop) (b : bytes)
    (s : State) : Prop :=
  HTTPClient (this s) = Some cl /\ Inv (net s) /\
  (forall req n, Inv n -> exists n', cl req n = (Response b None, n') /\ Inv n').

(** No target takes the payload [b] through the decoder [unmarshal]. *)
Definition undecodable {T} (unmarshal : bytes -> T -> option error * T) (b : bytes)
    : Prop :=
  forall t, exists cause t', unmarshal b t = (Some cause, t').
End Model.

(** ** The test double of mock_test.go

    An environment to run the client in: payloads are JSON documents (or
    empty), the transport is [MockTransport], and a build is known by its
    numeric id. *)

Definition dquote : string := String (ascii_of_nat 34) EmptyString.

(** The text of a document (string escapes left aside). *)
Fixpoint json_text (j : json) : string :=
  match j with
  | JNull => "null"
  | JBool b => if b then "true" else "false"
  | JNumber n => pretty n
  | JString s => dquote +:+ s +:+ dquote
  | JArray items => "[" +:+ String.concat "," (List.map json_text items) +:+ "]"
  | JObject fields =>
      "{" +:+
      String.concat ","
        (List.map (fun kv => let '(k, v) := kv in
                             dquote +:+ k +:+ dquote +:+ ":" +:+ json_text v)
                  fields) +:+
      "}"
  end.

Record MockBuild : Type := mkMockBuild { mb_ID : Z }.

(** The member of an object that a struct field takes: key and field name
    are matched without regard to case. *)
Definition member (name : string) (fields : list (string * json)) : option json :=
  snd <$> List.find (fun kv => String.eqb (ToLower kv.1) (ToLower name)) fields.

(** Decoders of the mock: [None] is a type mismatch; an absent member and
    a null member of a scalar leave the current value. *)
Definition dec_int (cur : Z) (j : option json) : option Z :=
  match j with
  | None | Some JNull => Some cur
  | Some (JNumber n) => Some n
  | Some _ => None
  end.

Definition dec_string (cur : string) (j : option json) : option string :=
  match j with
  | None | Some JNull => Some cur
  | Some (JString s) => Some s
  | Some _ => None
  end.

Definition dec_bool (cur : bool) (j : option json) : option bool :=
  match j with
  | None | Some JNull => Some cur
  | Some (JBool b) => Some b
  | Some _ => None
  end.

Definition dec_slice {A} (dec : json -> option A) (cur : slice A)
    (j : option json) : option (slice A) :=
  match j with
  | None => Some cur
  | Some JNull => Some None
  | Some (JArray items) => Some <$> mapM dec items
  | Some _ => None
  end.

Definition dec_MockBuild (j : json) : option MockBuild :=
  match j with
  | JObject fields => mkMockBuild <$> dec_int 0 (member "id" fields)
  | _ => None
  end.

Definition dec_MockBuild_ptr (j : json) : option (option MockBuild) :=
  match j with
  | JNull => Some None
  | _ => Some <$> dec_MockBuild j
  end.

Definition dec_oneProperty (j : json) : option oneProperty :=
  match j with
  | JObject fields =>
      n ← dec_string "" (member "name" fields);
      v ← dec_string "" (member "value" fields);
      Some (mkOneProperty n v)
  | _ => None
  end.

(** The decoding of a payload into a target: the empty payload is not a
    document, and a mismatch leaves the target as it was. *)
Definition mock_Unmarshal {T} (dec : json -> T -> option T)
    (data : option json) (target : T) : option error * T :=
  match data with
  | None => (Some (foreign "unexpected end of JSON input"), target)
  | Some j =>
      match dec j target with
      | Some t => (None, t)
      | None => (Some (foreign "json: cannot unmarshal"), target)
      end
  end.

Definition mock_dec_Build (j : json) (target : option MockBuild)
    : option (option MockBuild) :=
  dec_MockBuild_ptr j.

Definition mock_dec_respStruct (j : json) (target : respStruct MockBuild)
    : option (respStruct MockBuild) :=
  match j with
  | JNull => Some target
  | JObject fields =>
      c ← dec_int (rs_Count target) (member "Count" fields);
      b ← dec_slice dec_MockBuild_ptr (rs_Build target) (member "Build" fields);
      Some (mkRespStruct c b)
  | _ => None
  end.

Definition mock_dec_builds (j : json) (target : option (builds MockBuild))
    : option (option (builds MockBuild)) :=
  match j with
  | JNull => Some None
  | JObject fields =>
      let cur := default (mkBuilds 0 "" "" None) target in
      c ← dec_int (bs_Count cur) (member "Count" fields);
      h ← dec_string (bs_Href cur) (member "Href" fields);
      n ← dec_string (bs_NextHref cur) (member "NextHref" fields);
      b ← dec_slice dec_MockBuild (bs_Build cur) (member "Build" fields);
      Some (Some (mkBuilds c h n b))
  | _ => None
  end.

Definition mock_dec_response (j : json) (target : response) : option response :=
  match j with
  | JNull => Some target
  | JObject fields =>
      mkResponse <$>
        dec_slice dec_oneProperty (resp_Property target) (member "property" fields)
  | _ => None
  end.

Definition mock_dec_changes (j : json) (target : changes json)
    : option (changes json) :=
  match j with
  | JNull => Some target
  | JObject fields =>
      mkChanges <$> dec_slice Some (ch_Change target) (member "Change" fields)
  | _ => None
  end.

Definition mock_dec_problems (j : json) (target : problems json)
    : option (problems json) :=
  match j with
  | JNull => Some target
  | JObject fields =>
      c ← dec_int (pr_Count target) (member "Count" fields);
      d ← dec_bool (pr_Default target) (member "Default" fields);
      l ← dec_slice Some (pr_ProblemOccurrence target)
            (member "ProblemOccurrence" fields);
      Some (mkProblems c d l)
  | _ => None
  end.

Definition mock_dec_tests (j : json) (target : tests json) : option (tests json) :=
  match j with
  | JNull => Some target
  | JObject fields =>
      c ← dec_int (ts_Count target) (member "Count" fields);
      h ← dec_string (ts_HREF target) (member "HREF" fields);
      l ← dec_slice Some (ts_TestOccurrence target) (member "TestOccurrence" fields);
      Some (mkTests c h l)
  | _ => None
  end.

(** [type MockTransport struct { req *http.Request; resp *http.Response;
    err error }]; [resp] is the body still to be read, when there is a
    response. *)
Record MockTransport : Type := mkMockTransport {
  mt_req : option (Request (option json));
  mt_resp : option (option json);
  mt_err : option error
}.

(** [func (b *MockTransport) RoundTrip(req)], seen through the client's
    [Do] and the read of the body: the request is recorded; the error, if
    set, fails the call; the body is read to its end, so that a later read
    of the same response finds it empty. *)
Definition RoundTrip (req : Request (option json)) (b : MockTransport)
    : HttpResult (option json) * MockTransport :=
  match mt_err b, mt_resp b with
  | Some err, _ => (DoError err, mkMockTransport (Some req) (mt_resp b) (mt_err b))
  | None, None =>
      (DoError (foreign "http: RoundTripper implementation returned a nil *Response with a nil error"),
       mkMockTransport (Some req) None None)
  | None, Some body =>
      (Response body None, mkMockTransport (Some req) (Some None) None)
  end.

#[local] Instance MockEnv : Env := {|
  bytes := option json;
  bytes_empty := None;
  bytes_string := fun b => match b with Some j => json_text j | None => "" end;
  netstate := MockTransport;
  NewRequest_ok := fun _ _ => true;
  json_Marshal := Some;
  range_map := map_to_list;
  range_map_perm := fun m => reflexivity (map_to_list m);
  Build := MockBuild;
  Build_zero := mkMockBuild 0;
  Build_ID := mb_ID;
  convertInputs := fun b => b;
  Change := json;
  ProblemOccurrence := json;
  TestOccurrence := json;
  Unmarshal_Build := mock_Unmarshal mock_dec_Build;
  Unmarshal_respStruct := mock_Unmarshal mock_dec_respStruct;
  Unmarshal_builds := mock_Unmarshal mock_dec_builds;
  Unmarshal_response := mock_Unmarshal mock_dec_response;
  Unmarshal_changes := mock_Unmarshal mock_dec_changes;
  Unmarshal_problems := mock_Unmarshal mock_dec_problems;
  Unmarshal_tests := mock_Unmarshal mock_dec_tests
|}.

(** [func NewTestClient(replyResp *http.Response, err error) *Client], with
    the transport it is wired to. *)
Definition NewTestClient (replyResp : option (option json)) (err : option error)
    : State (E:=MockEnv) :=
  mkState
    {| username := "username";
       password := "password";
       host := "host.example.com";
       HTTPClient := Some RoundTrip;
       debug := false |}
    (mkMockTransport None replyResp err)
    [].

(** [func newResponse(body string) *http.Response], for the text of a
    document. *)
Definition newResponse (body : json) : option (option json) := Some (Some body).

(** Replies of the server, as documents. *)

(** A build list with no match: count 0 and an empty array. *)
Definition doc_no_builds : json :=
  JObject [("count", JNumber 0); ("build", JArray [])].


(** A build list with one match, of id 42. *)
Definition doc_one_build : json :=
  JObject [("count", JNumber 1); ("build", JArray [JObject [("id", JNumber 42)]])].

(** A reply with no member at all. *)
Definition doc_empty : json := JObject [].

(** The property list a=1, a=2. *)
Definition doc_properties : json :=
  JObject [("property",
            JArray [JObject [("name", JString "a"); ("value", JString "1")];
                    JObject [("name", JString "a"); ("value", JString "2")]])].

(** A transport that fails with its error once and answers from then
    on. *)
Definition RoundTrip_recovering (req : Request (option json)) (b : MockTransport)
    : HttpResult (option json) * MockTransport :=
  match mt_err b with
  | Some err => (DoError err, mkMockTransport (Some req) (mt_resp b) None)
  | None => RoundTrip req b
  end.

(** The test client over that transport: the first attempt meets a reset
    connection, the second the reply [body]. *)
Definition NewRecoveringClient (body : json) : State (E:=MockEnv) :=
  mkState
    {| username := "username";
       password := "password";
       host := "host.example.com";
       HTTPClient := Some RoundTrip_recovering;
       debug := true |}
    (mkMockTransport None (newResponse body) (Some (foreign "connection reset")))
    [].

(** A transport that refuses every connection. *)
Definition refused : State (E:=MockEnv) :=
  NewTestClient None (Some (foreign "connection refused")).

(** A unit of work for the retry loop alone: it counts its calls in its
    state and fails until the call with the given number. *)
Definition flaky (succeeds_at : nat) : M (nat * list logline) (option error) :=
  fun s =>
    let n := S (fst s) in
    (Ret (if (n <? succeeds_at)%nat then Some (foreign ("attempt " +:+ pretty n)) else None),
     (n, snd s)).

#[local] Instance Logger_flaky : Logger (nat * list logline) :=
  fun l s => (fst s, (snd s ++ [l])%list).

(** A client with no transport: the zero value of the [HTTPClient] field. *)
Definition no_transport : State (E:=MockEnv) :=
  mkState
    {| username := "username";
       password := "password";
       host := "host.example.com";
       HTTPClient := None;
       debug := false |}
    (mkMockTransport None None None)
    [].

(** A change list that is present and empty. *)
Definition doc_no_changes : json := JObject [("change", JArray [])].

(** A reply that is an array where an object is expected. *)
Definition doc_array : json := JArray [].

(* ================================================================== *)
(** * Properties *)
(* ================================================================== *)

(** ** The retry policy *)

Section RetryFacts.
Context {St : Type} `{Logger St}.
Variable f : M St (option error).
Variable retries : Z.

Lemma outcome_fail_step k s e :
  outcome retries f k s = Ret (Some e) ->
  before retries f (S k) s =
    log_Printf (RetryLine (Z.of_nat k) retries e) (snd (f (before retries f k s))).
Proof.
  unfold outcome. simpl.
  destruct (f (before retries f k s)) as [r s2]. simpl.
  intros ->. reflexivity.
Qed.

(** Peeling [k] failed iterations off the front of the loop. *)
Lemma withRetry_loop_peel k : forall m err s,
  (forall j, (j < k)%nat -> exists e, outcome retries f j s = Ret (Some e)) ->
  withRetry_loop (k + m) 0 retries (counted f) err (O, s) =
  withRetry_loop m (Z.of_nat k) retries (counted f)
    (err_after retries f k s err) (k, before retries f k s).
Proof.
  induction k as [|k IH]; intros m err s Hfail.
  - reflexivity.
  - replace (S k + m)%nat with (k + S m)%nat by lia.
    rewrite IH by (intros j Hj; apply Hfail; lia).
    destruct (Hfail k) as [e He]; [lia|].
    pose proof (outcome_fail_step k s e He) as Hstep.
    cbn [withRetry_loop]. unfold counted at 1. cbn [snd fst].
    unfold outcome in He.
    destruct (f (before retries f k s)) as [r s2] eqn:Hf.
    cbn [fst snd] in He, Hstep. subst r.
    cbn [err_after]. unfold outcome. rewrite Hf. cbn [fst].
    rewrite Hstep.
    replace (Z.of_nat (S k)) with (Z.of_nat k + 1) by lia.
    reflexivity.
Qed.
End RetryFacts.

(** C1. With the bound 8: a unit of work that fails on its first N-1
    invocations and succeeds on the N-th (1 <= N <= 8) makes [withRetry]
    return nil after exactly N invocations; a unit of work that fails on
    every invocation is invoked exactly 8 times and [withRetry] returns the
    error of the 8th invocation. *)
Theorem withRetry_8_attempts {St : Type} `{Logger St}
    (f : M St (option error)) (s : St) :
  (forall N : nat, (1 <= N <= 8)%nat ->
     (forall k, (k < N - 1)%nat -> exists e, outcome 8 f k s = Ret (Some e)) ->
     outcome 8 f (N - 1) s = Ret None ->
     withRetry 8 (counted f) (O, s) =
       (Ret None, (N, snd (f (before 8 f (N - 1) s)))))
  /\
  ((forall k, (k < 8)%nat -> exists e, outcome 8 f k s = Ret (Some e)) ->
   exists e8, outcome 8 f 7 s = Ret (Some e8) /\
     withRetry 8 (counted f) (O, s) = (Ret (Some e8), (8%nat, before 8 f 8 s))).
Proof.
  split.
  - intros N HN Hfail Hok.
    unfold withRetry.
    replace (Z.to_nat 8) with ((N - 1) + S (8 - N))%nat by lia.
    rewrite (withRetry_loop_peel f 8 (N - 1) (S (8 - N)) None s Hfail).
    cbn [withRetry_loop]. unfold counted at 1. cbn [snd fst].
    unfold outcome in Hok.
    destruct (f (before 8 f (N - 1) s)) as [r s2]. cbn [fst snd] in *. subst r.
    replace (S (N - 1)) with N by lia. reflexivity.
  - intros Hfail.
    destruct (Hfail 7%nat) as [e8 He8]; [lia|].
    exists e8. split; [exact He8|].
    unfold withRetry.
    replace (Z.to_nat 8) with (8 + 0)%nat by lia.
    rewrite (withRetry_loop_peel f 8 8 0 None s Hfail).
    cbn [withRetry_loop err_after]. rewrite He8. reflexivity.
Qed.

(** C10. With [retries <= 0] the unit of work is never invoked and
    [withRetry] returns the nil error, leaving the state as it was. *)
Theorem withRetry_nonpositive {St : Type} `{Logger St}
    (f : M St (option error)) (retries : Z) (s : St) (c : nat) :
  retries <= 0 ->
  withRetry retries (counted f) (c, s) = (Ret None, (c, s)).
Proof.
  intros Hle. unfold withRetry.
  replace (Z.to_nat retries) with O by lia. reflexivity.
Qed.

(** ** Strings *)

Lemma append_cons a s t : String a s +:+ t = String a (s +:+ t).
Proof. reflexivity. Qed.

Lemma append_nil_l t : "" +:+ t = t.
Proof. reflexivity. Qed.

Lemma append_nil_r s : s +:+ "" = s.
Proof. induction s as [|a s IH]; [reflexivity|]. rewrite append_cons, IH. reflexivity. Qed.

Lemma append_assoc s t u : (s +:+ t) +:+ u = s +:+ (t +:+ u).
Proof.
  induction s as [|a s IH]; [reflexivity|].
  rewrite !append_cons, IH. reflexivity.
Qed.

Lemma length_append s t :
  String.length (s +:+ t) = (String.length s + String.length t)%nat.
Proof.
  induction s as [|a s IH]; [reflexivity|].
  rewrite append_cons. simpl. rewrite IH. reflexivity.
Qed.

(** Splitting off the last byte. *)
Lemma string_snoc_cases s :
  s = "" \/ exists s' c, s = s' +:+ String c "".
Proof.
  induction s as [|a s IH]; [left; reflexivity|right].
  destruct IH as [->|(s' & c & ->)].
  - exists "", a. reflexivity.
  - exists (String a s'), c. reflexivity.
Qed.

Lemma string_snoc_inj s t c d :
  s +:+ String c "" = t +:+ String d "" -> s = t /\ c = d.
Proof.
  revert t. induction s as [|a s IH]; intros [|b t] Heq.
  - rewrite !append_nil_l in Heq. injection Heq as ->. split; reflexivity.
  - rewrite append_nil_l, append_cons in Heq. injection Heq as -> Heq.
    destruct t; discriminate Heq.
  - rewrite append_nil_l, append_cons in Heq. injection Heq as -> Heq.
    destruct s; discriminate Heq.
  - rewrite !append_cons in Heq. injection Heq as -> Heq.
    destruct (IH _ Heq) as [-> ->]. split; reflexivity.
Qed.

Lemma substring_skip a b n :
  substring (String.length a) n (a +:+ b) = substring 0 n b.
Proof. induction a as [|x a IH]; [reflexivity|]. rewrite append_cons. simpl. exact IH. Qed.

Lemma substring_take a b :
  substring 0 (String.length a) (a +:+ b) = a.
Proof.
  induction a as [|x a IH].
  - simpl. destruct b; reflexivity.
  - rewrite append_cons. simpl. rewrite IH. reflexivity.
Qed.

Lemma substring_split s : forall n, (n <= String.length s)%nat ->
  s = substring 0 n s +:+ substring n (String.length s - n) s.
Proof.
  induction s as [|a s IH]; intros [|n] Hn; simpl in *; try lia.
  - reflexivity.
  - rewrite append_nil_l. f_equal. clear.
    induction s as [|b s IH]; [reflexivity|]. simpl. f_equal. exact IH.
  - rewrite append_cons. f_equal. apply IH. lia.
Qed.

Lemma HasSuffix_slash_iff s :
  HasSuffix s "/" = true <-> exists s', s = s' +:+ "/".
Proof.
  unfold HasSuffix. rewrite andb_true_iff, String.eqb_eq, Nat.leb_le.
  change (String.length "/") with 1%nat. split.
  - intros [Hlen Hsub].
    exists (substring 0 (String.length s - 1) s).
    pose proof (substring_split s (String.length s - 1) ltac:(lia)) as Hs.
    replace (String.length s - (String.length s - 1))%nat with 1%nat in Hs by lia.
    rewrite Hsub in Hs. exact Hs.
  - intros [s' ->]. rewrite length_append. simpl. split; [lia|].
    replace (String.length s' + 1 - 1)%nat with (String.length s') by lia.
    rewrite substring_skip. reflexivity.
Qed.

Lemma TrimSuffix_slash s' : TrimSuffix (s' +:+ "/") "/" = s'.
Proof.
  unfold TrimSuffix.
  assert (H : HasSuffix (s' +:+ "/") "/" = true) by (apply HasSuffix_slash_iff; eauto).
  rewrite H, length_append. simpl.
  replace (String.length s' + 1 - 1)%nat with (String.length s') by lia.
  apply substring_take.
Qed.

Lemma prefix_iff p s :
  String.prefix p s = true <-> exists post, s = p +:+ post.
Proof.
  revert p. induction s as [|b s IH]; intros [|a p]; simpl.
  - split; [intros _; exists ""; reflexivity | reflexivity].
  - split; [discriminate | intros [post H]; discriminate H].
  - split; [intros _; exists (String b s); reflexivity | reflexivity].
  - destruct (ascii_dec a b) as [->|Hne].
    + rewrite IH. split; intros [post H]; exists post.
      * rewrite append_cons, H. reflexivity.
      * rewrite append_cons in H. injection H as ->. reflexivity.
    + split; [discriminate|]. intros [post H].
      rewrite append_cons in H. injection H as -> _. contradiction.
Qed.

Lemma Contains_iff s sub :
  Contains s sub = true <-> exists pre post, s = pre +:+ sub +:+ post.
Proof.
  induction s as [|a s IH]; cbn [Contains]; rewrite orb_true_iff, prefix_iff.
  - split.
    + intros [[post H]|H]; [|discriminate]. exists "", post. exact H.
    + intros (pre & post & H). left. destruct pre as [|x pre].
      * exists post. exact H.
      * rewrite append_cons in H. discriminate H.
  - rewrite IH. split.
    + intros [[post H]|(pre & post & H)].
      * exists "", post. exact H.
      * exists (String a pre), post. rewrite append_cons, H. reflexivity.
    + intros (pre & post & H). destruct pre as [|x pre].
      * left. exists post. exact H.
      * right. rewrite append_cons in H. injection H as -> H.
        exists pre, post. exact H.
Qed.

Lemma ToLower_append s t : ToLower (s +:+ t) = ToLower s +:+ ToLower t.
Proof.
  induction s as [|a s IH]; [reflexivity|].
  rewrite append_cons. simpl. rewrite IH. reflexivity.
Qed.

Lemma ToLower_split s : forall x y, ToLower s = x +:+ y ->
  exists a b, s = a +:+ b /\ ToLower a = x /\ ToLower b = y.
Proof.
  induction s as [|c s IH]; intros x y H.
  - destruct x; [|discriminate H]. destruct y; [|discriminate H].
    exists "", "". repeat split.
  - destruct x as [|cx x].
    + exists "", (String c s). rewrite append_nil_l in H. repeat split. exact H.
    + rewrite append_cons in H. simpl in H. injection H as Hc H.
      destruct (IH _ _ H) as (a & b & -> & Ha & Hb).
      exists (String c a), b. simpl. rewrite Ha, Hc. repeat split. exact Hb.
Qed.

Lemma lower_byte_h a : lower_byte a = "h"%char <-> a = "h"%char \/ a = "H"%char.
Proof.
  split.
  - destruct a as [[] [] [] [] [] [] [] []]; vm_compute; intros H;
      first [discriminate H | left; reflexivity | right; reflexivity].
  - intros [->| ->]; reflexivity.
Qed.

Lemma lower_byte_t a : lower_byte a = "t"%char <-> a = "t"%char \/ a = "T"%char.
Proof.
  split.
  - destruct a as [[] [] [] [] [] [] [] []]; vm_compute; intros H;
      first [discriminate H | left; reflexivity | right; reflexivity].
  - intros [->| ->]; reflexivity.
Qed.

Lemma lower_byte_p a : lower_byte a = "p"%char <-> a = "p"%char \/ a = "P"%char.
Proof.
  split.
  - destruct a as [[] [] [] [] [] [] [] []]; vm_compute; intros H;
      first [discriminate H | left; reflexivity | right; reflexivity].
  - intros [->| ->]; reflexivity.
Qed.

Lemma ToLower_http mid : ToLower mid = "http" <-> http_anycase mid.
Proof.
  split.
  - destruct mid as [|a [|b [|c [|d [|e mid]]]]]; simpl; intros H; try discriminate H.
    injection H as Ha Hb Hc Hd.
    exists a, b, c, d. split; [reflexivity|].
    rewrite <- lower_byte_h, <- !lower_byte_t, <- lower_byte_p. auto.
  - intros (a & b & c & d & -> & Ha & Hb & Hc & Hd). simpl.
    apply lower_byte_h in Ha. apply lower_byte_t in Hb, Hc. apply lower_byte_p in Hd.
    rewrite Ha, Hb, Hc, Hd. reflexivity.
Qed.

Lemma Contains_ToLower_http s :
  Contains (ToLower s) "http" = true <-> contains_http_anycase s.
Proof.
  rewrite Contains_iff. unfold contains_http_anycase. split.
  - intros (pre & post & H).
    apply ToLower_split in H as (a & b & -> & Ha & Hb).
    apply ToLower_split in Hb as (m & p & -> & Hm & Hp).
    exists a, m, p. split; [reflexivity|]. apply ToLower_http. exact Hm.
  - intros (pre & mid & post & -> & Hmid). apply ToLower_http in Hmid.
    exists (ToLower pre), (ToLower post).
    rewrite !ToLower_append, Hmid. reflexivity.
Qed.

(** A trailing slash neither makes nor breaks an occurrence of http. *)
Lemma contains_http_anycase_slash s :
  contains_http_anycase (s +:+ "/") <-> contains_http_anycase s.
Proof.
  split.
  - intros (pre & mid & post & Heq & Hmid).
    destruct (string_snoc_cases post) as [->|(post' & c & ->)].
    + exfalso. destruct Hmid as (a & b & c & d & -> & _ & _ & _ & Hd).
      rewrite append_nil_r in Heq.
      change (String a (String b (String c (String d ""))))
        with (String a (String b (String c "")) +:+ String d "") in Heq.
      rewrite <- append_assoc in Heq.
      apply string_snoc_inj in Heq as [_ Heq].
      destruct Hd as [->| ->]; discriminate Heq.
    + rewrite <- !append_assoc in Heq.
      apply string_snoc_inj in Heq as [-> _].
      exists pre, mid, post'. split; [apply append_assoc|exact Hmid].
  - intros (pre & mid & post & -> & Hmid).
    exists pre, mid, (post +:+ "/"). split; [|exact Hmid].
    rewrite !append_assoc. reflexivity.
Qed.

Section AddProtocol.
Context {E : Env}.

(** C4. For a host that does not contain http in any letter case the
  resolved URL is https:// followed by the host with one trailing slash
  stripped and by the path; for a host that contains http it is the
  stripped host followed by the path, with no scheme put in front. *)
Theorem addProtocol_resolves (c : Client) (P h' : string) :
one_slash_stripped (host c) h' ->
(~ contains_http_anycase (host c) -> addProtocol c P = "https://" +:+ h' +:+ P) /\
(contains_http_anycase (host c) -> addProtocol c P = h' +:+ P).
Proof.
intros Hstrip. unfold addProtocol.
assert (Hhost : (if HasSuffix (host c) "/" then TrimSuffix (host c) "/" else host c) = h').
{ destruct Hstrip as [Heq|[-> Hno]].
  - assert (H : HasSuffix (host c) "/" = true) by (apply HasSuffix_slash_iff; eauto).
    rewrite H, Heq. apply TrimSuffix_slash.
  - destruct (HasSuffix (host c) "/") eqn:H; [|reflexivity].
    apply HasSuffix_slash_iff in H as [x Hx]. destruct (Hno x Hx). }
rewrite Hhost.
assert (Hsame : contains_http_anycase (host c) <-> contains_http_anycase h').
{ destruct Hstrip as [->|[-> _]]; [apply contains_http_anycase_slash|reflexivity]. }
split; intros Hc.
- destruct (Contains (ToLower h') "http") eqn:Hb; [|reflexivity].
  apply Contains_ToLower_http in Hb. destruct Hc. apply Hsame. exact Hb.
- apply Hsame, Contains_ToLower_http in Hc. rewrite Hc. reflexivity.
Qed.
End AddProtocol.

(** ** The transport and the unit of work *)

Section Facts.
Context {E : Env}.

Lemma sent_app (t1 t2 : list event) : sent (t1 ++ t2) = (sent t1 + sent t2)%nat.
Proof. unfold sent. rewrite List.filter_app, length_app. reflexivity. Qed.

Lemma sent_debug_print c path : sent (debug_print c path) = 0%nat.
Proof. unfold debug_print. destruct (debug c); reflexivity. Qed.

Lemma sent_after_reply s method path body n' :
  sent (trace (after_reply s method path body n')) = S (sent (trace s)).
Proof.
  unfold after_reply. cbn [trace]. rewrite !sent_app, sent_debug_print.
  cbn. lia.
Qed.

(** One exchange with the transport. *)
Lemma doNotJSONRequest_replies s method path data r n' :
  replies s method path (json_Marshal <$> data) r n' ->
  doNotJSONRequest method path data s =
    (Ret (match r with
          | DoError e => (bytes_empty, Some e)
          | Response b rerr => (b, rerr)
          end),
     after_reply s method path (json_Marshal <$> data) n').
Proof.
  intros (cl & Hcl & Hok & Hdo).
  unfold doNotJSONRequest, after_reply, debug_print, http_NewRequest.
  unfold mbind, M_bind, getThis. cbn beta iota.
  rewrite Hok.
  assert (Hreq :
    (let req := SetBasicAuth (mkRequest method (addProtocol (this s) path)
                                (json_Marshal <$> data) None [])
                  (username (this s)) (password (this s)) in
     let req := Header_Add req "Accept" "application/json" in
     match json_Marshal <$> data with
     | Some _ => Header_Add req "Content-Type" "application/json"
     | None => req
     end) = the_request (this s) method path (json_Marshal <$> data)).
  { unfold the_request, Header_Add, SetBasicAuth.
    destruct (json_Marshal <$> data); reflexivity. }
  cbv zeta in Hreq.
  destruct (debug (this s)) eqn:Hdbg.
  - unfold emit. cbn [this net trace]. rewrite Hcl.
    unfold Do. cbn [this net trace]. rewrite Hreq, Hdo.
    rewrite <- app_assoc. destruct r; reflexivity.
  - unfold mret, M_ret. cbn [this net trace]. rewrite Hcl.
    unfold Do. cbn [this net trace]. rewrite Hreq, Hdo.
    destruct r; reflexivity.
Qed.

(** A request whose reply is read without error and decodes. *)
Lemma doRequest_decodes {T} s method path data b n'
    (unmarshal : bytes -> T -> option error * T) (target t' : T) :
  replies s method path (json_Marshal <$> data) (Response b None) n' ->
  unmarshal b target = (None, t') ->
  doRequest method path data (Some unmarshal) target s =
    (Ret (None, t'), written (after_reply s method path (json_Marshal <$> data) n') b).
Proof.
  intros Hrep Hdec. unfold doRequest.
  unfold mbind at 1. unfold M_bind at 1.
  rewrite (doNotJSONRequest_replies _ _ _ _ _ _ Hrep).
  cbn beta iota. unfold mbind, M_bind, emit. cbn [this net trace].
  rewrite Hdec. reflexivity.
Qed.

(** A request that the transport fails. *)
Lemma doRequest_fails {T} s method path data e n'
    (v : option (bytes -> T -> option error * T)) (target : T) :
  replies s method path (json_Marshal <$> data) (DoError e) n' ->
  doRequest method path data v target s =
    (Ret (Some e, target), after_reply s method path (json_Marshal <$> data) n').
Proof.
  intros Hrep. unfold doRequest.
  unfold mbind at 1. unfold M_bind at 1.
  rewrite (doNotJSONRequest_replies _ _ _ _ _ _ Hrep).
  reflexivity.
Qed.

(** When the first attempt succeeds, the retry loop stops there. *)
Lemma retrying_first {T} (call : T -> M State (option error * T)) x x' s s'
    (retries : Z) :
  0 < retries ->
  call x s = (Ret (None, x'), s') ->
  retrying retries call x s = (Ret (None, x'), s').
Proof.
  intros Hpos Hcall. unfold retrying, withRetry.
  destruct (Z.to_nat retries) as [|n] eqn:Hn; [lia|].
  cbn [withRetry_loop]. unfold closure at 1. cbn [fst snd].
  rewrite Hcall. reflexivity.
Qed.

(** An invariant of the unit of work and of the logger is an invariant
    of the retry loop. *)
Lemma withRetry_loop_invariant {St} `{Logger St} (I : St -> Prop)
    (f : M St (option error)) (retries : Z) :
  (forall s, I s -> I (f s).2) ->
  (forall l s, I s -> I (log_Printf l s)) ->
  forall n i err s, I s -> I (withRetry_loop n i retries f err s).2.
Proof.
  intros Hf Hlog. induction n as [|n IH]; intros i err s Hs; cbn [withRetry_loop].
  - exact Hs.
  - specialize (Hf s Hs). destruct (f s) as [[[e|]|msg] s1]; cbn [snd] in *.
    + apply IH, Hlog, Hf.
    + exact Hf.
    + exact Hf.
Qed.

Lemma retrying_invariant {T} (I : State -> Prop)
    (call : T -> M State (option error * T)) (retries : Z) :
  (forall x s, I s -> I (call x s).2) ->
  (forall l s, I s -> I (log_Printf l s)) ->
  forall x s, I s -> I (retrying retries call x s).2.
Proof.
  intros Hcall Hlog x s Hs. unfold retrying, withRetry.
  pose proof (withRetry_loop_invariant (fun ts : T * State => I ts.2)
                (closure call) retries) as Hinv.
  specialize (Hinv
    ltac:(intros [x0 s0] H0; unfold closure; cbn [fst snd] in *;
          specialize (Hcall x0 s0 H0);
          destruct (call x0 s0) as [[[err x1]|msg] s1]; exact Hcall)
    ltac:(intros l [x0 s0] H0; apply Hlog, H0)
    (Z.to_nat retries) 0 None (x, s) Hs).
  destruct (withRetry_loop _ _ _ _ _ _) as [[err|msg] [x1 s1]]; exact Hinv.
Qed.

(** *** The receiver is left alone *)

Lemma frames_mret {A} (a : A) : frames (mret a).
Proof. intros s. reflexivity. Qed.

Lemma frames_panic {A} msg : frames (panic (A:=A) msg).
Proof. intros s. reflexivity. Qed.

Lemma frames_lift {A} (r : res A) : frames (lift r).
Proof. intros s. reflexivity. Qed.

Lemma frames_emit e : frames (emit e).
Proof. intros s. reflexivity. Qed.

Lemma frames_getThis : frames getThis.
Proof. intros s. reflexivity. Qed.

Lemma frames_Do cl req : frames (Do cl req).
Proof. intros s. unfold Do. destruct (cl req (net s)). reflexivity. Qed.

Lemma frames_bind {A B} (m : M State A) (k : A -> M State B) :
  frames m -> (forall a, frames (k a)) -> frames (m ≫= k).
Proof.
  intros Hm Hk s. unfold mbind, M_bind. specialize (Hm s).
  destruct (m s) as [[a|msg] s1]; cbn [snd] in *.
  - rewrite Hk. exact Hm.
  - exact Hm.
Qed.

Lemma frames_log l s : this (log_Printf l s) = this s.
Proof. reflexivity. Qed.

Lemma frames_retrying {T} retries (call : T -> M State (option error * T)) x :
  (forall y, frames (call y)) -> frames (retrying retries call x).
Proof.
  intros Hcall s.
  apply (retrying_invariant (fun s1 => this s1 = this s) call retries).
  - intros y s1 H1. rewrite Hcall. exact H1.
  - intros l s1 H1. exact H1.
  - reflexivity.
Qed.

Ltac frame :=
  repeat first
    [ apply frames_mret | apply frames_panic | apply frames_lift
    | apply frames_emit | apply frames_getThis | apply frames_Do
    | apply frames_retrying; intros
    | apply frames_bind; [|intros]
    | match goal with
      | |- frames (let '(_, _) := ?p in _) => destruct p
      | |- frames (match ?x with _ => _ end) => destruct x
      | |- frames (if ?b then _ else _) => destruct b
      end ].

Lemma frames_doNotJSONRequest method path data :
  frames (doNotJSONRequest method path data).
Proof. unfold doNotJSONRequest. frame. Qed.

Lemma frames_doRequest {T} method path data
    (v : option (bytes -> T -> option error * T)) target :
  frames (doRequest method path data v target).
Proof.
  unfold doRequest. apply frames_bind; [apply frames_doNotJSONRequest|].
  intros [jsonCnt [e|]]; [apply frames_mret|].
  apply frames_bind; [apply frames_emit|]. intros _.
  destruct v as [unmarshal|]; [|apply frames_mret].
  destruct (unmarshal jsonCnt target) as [[e|] t']; apply frames_mret.
Qed.

Lemma frames_exec op : (forall d, op <> CallSetDebug d) -> frames (exec op).
Proof.
  intros Hop.
  destruct op; cbn [exec]; [destruct (Hop d eq_refl)| ..]; unfold forget;
    (apply frames_bind; [|intros; apply frames_mret]).
  - unfold QueueBuild. apply frames_bind.
    + apply frames_retrying. intros. apply frames_doRequest.
    + intros [[e|] b]; frame.
  - unfold SearchBuild. apply frames_bind.
    + apply frames_retrying. intros. apply frames_doRequest.
    + intros [[e|] b]; frame.
  - unfold GetQueuedBuilds. apply frames_bind.
    + apply frames_retrying. intros. apply frames_doRequest.
    + intros [[e|] b]; frame.
  - unfold GetBuild. apply frames_bind.
    + apply frames_retrying. intros. apply frames_doRequest.
    + intros [[e|] b]; frame.
  - unfold GetBuildID. apply frames_bind.
    + apply frames_retrying. intros. apply frames_doRequest.
    + intros [[e|] b]; frame.
  - unfold GetBuildProperties. apply frames_bind.
    + apply frames_retrying. intros. apply frames_doRequest.
    + intros [[e|] b]; frame.
  - unfold GetChanges. apply frames_bind; [apply frames_doRequest|].
    intros [[e|] b]; frame.
  - unfold GetProblems. apply frames_bind; [apply frames_doRequest|].
    intros [[e|] b]; frame.
  - unfold GetTests. apply frames_bind; [apply frames_doRequest|].
    intros [[e|] b]; frame.
  - unfold CancelBuild. apply frames_bind; [apply frames_doRequest|].
    intros [err u]; frame.
  - unfold GetBuildLog. apply frames_bind; [apply frames_doNotJSONRequest|].
    intros [cnt err]; frame.
Qed.

(** C9. No exported method writes to the host, the username or the
    password of the client; a method other than [SetDebug] leaves the whole
    client as it was, and [SetDebug] sets the debug flag and changes nothing
    else, neither in the client nor in the network or the trace. *)
Theorem client_configuration_immutable (op : call) (s : State) :
  let s' := (exec op s).2 in
  host (this s') = host (this s) /\
  username (this s') = username (this s) /\
  password (this s') = password (this s) /\
  HTTPClient (this s') = HTTPClient (this s) /\
  match op with
  | CallSetDebug d =>
      debug (this s') = d /\ net s' = net s /\ trace s' = trace s
  | _ => this s' = this s
  end.
Proof.
  destruct op as [d| | | | | | | | | | | ];
    try (match goal with
         | |- context [exec ?o] =>
             pose proof (frames_exec o ltac:(intros ?; discriminate) s) as Hfr
         end;
         cbv zeta; rewrite Hfr; repeat split; reflexivity).
  cbn. repeat split; reflexivity.
Qed.

(** *** Attempts against a transport that is down *)

Lemma down_replies cl I s method path body :
  down_with cl I s ->
  NewRequest_ok method (addProtocol (this s) path) = true ->
  exists e n', replies s method path body (DoError e) n' /\ I n'.
Proof.
  intros (Hcl & HI & Hfail) Hok.
  destruct (Hfail (the_request (this s) method path body) (net s) HI)
    as (e & n' & Hdo & HI').
  exists e, n'. split; [|exact HI']. exists cl. auto.
Qed.

Lemma doRequest_down {T} c cl I method path data
    (v : option (bytes -> T -> option error * T)) :
  NewRequest_ok method (addProtocol c path) = true ->
  one_failed_attempt (fun s => this s = c /\ down_with cl I s)
    (doRequest method path data v).
Proof.
  intros Hok x s [<- Hdown].
  destruct (down_replies cl I s method path (json_Marshal <$> data) Hdown Hok)
    as (e & n' & Hrep & HI').
  exists e, (after_reply s method path (json_Marshal <$> data) n').
  rewrite (doRequest_fails _ _ _ _ _ _ v x Hrep).
  split; [reflexivity|]. split; [|apply sent_after_reply].
  split; [reflexivity|].
  destruct Hdown as (Hcl & _ & Hfail). repeat split; assumption.
Qed.

Lemma withRetry_loop_down {T} (P : State -> Prop)
    (call : T -> M State (option error * T)) retries :
  (forall l s, P s -> P (log_Printf l s)) ->
  one_failed_attempt P call ->
  forall n i err x s, P s ->
    exists err' s',
      withRetry_loop n i retries (closure call) err (x, s) = (Ret err', (x, s')) /\
      P s' /\ sent (trace s') = (sent (trace s) + n)%nat /\
      (n <> O -> is_Some err').
Proof.
  intros Hlog Hcall.
  induction n as [|n IH]; intros i err x s Hs; cbn [withRetry_loop].
  - exists err, s. repeat split; [exact Hs | lia | congruence].
  - destruct (Hcall x s Hs) as (e & s1 & Hc & Hs1 & Hsent).
    unfold closure at 1. cbn [fst snd]. rewrite Hc.
    change (log_Printf (RetryLine i retries e) (x, s1))
      with (x, log_Printf (RetryLine i retries e) s1).
    destruct (IH (i + 1) (Some e) x (log_Printf (RetryLine i retries e) s1))
      as (err' & s' & Hl & Hs' & Hn & Hsome).
    { apply Hlog, Hs1. }
    exists (match n with O => Some e | S _ => err' end), s'.
    split.
    { rewrite Hl. destruct n; [|reflexivity].
      cbn [withRetry_loop] in Hl. injection Hl as <- _. reflexivity. }
    split; [exact Hs'|]. split.
    { rewrite Hn. unfold log_Printf, Logger_State. cbn [trace].
      rewrite sent_app. cbn. lia. }
    intros _. destruct n; [eexists; reflexivity|apply Hsome; lia].
Qed.

Lemma retrying_down {T} (P : State -> Prop)
    (call : T -> M State (option error * T)) x s :
  (forall l s, P s -> P (log_Printf l s)) ->
  one_failed_attempt P call -> P s ->
  exists e s', retrying 8 call x s = (Ret (Some e, x), s') /\
               sent (trace s') = (sent (trace s) + 8)%nat.
Proof.
  intros Hlog Hcall Hs. unfold retrying, withRetry.
  destruct (withRetry_loop_down P call 8 Hlog Hcall (Z.to_nat 8) 0 None x s Hs)
    as (err' & s' & Hl & _ & Hn & Hsome).
  destruct Hsome as [e ->]; [discriminate|].
  exists e, s'. rewrite Hl. split; [reflexivity|exact Hn].
Qed.

(** C2, as the code has it.  Against a transport that is down, the six
    operations under the retry policy (queue build, search builds, get
    queued builds, get build, get build ID, get resulting properties) make
    8 attempts; get changes, get problems, get tests, cancel build and get
    raw log make their request once, outside the retry policy. *)
Theorem attempts_against_down_transport (op : call) (s : State) :
  down s -> buildable op (this s) ->
  attempts op s = attempts_when_down op.
Proof.
  intros (cl & I & Hdown) Hbuild. unfold attempts.
  set (P := fun s1 : State => this s1 = this s /\ down_with cl I s1).
  assert (HP : P s) by (split; [reflexivity|exact Hdown]).
  assert (Hlog : forall l s1, P s1 -> P (log_Printf l s1)) by (intros l s1 H1; exact H1).
  assert (Hretry : forall T A (call : T -> M State (option error * T)) x
                     (k : option error * T -> M State A),
             one_failed_attempt P call ->
             (forall e y s1, (k (Some e, y) s1).2 = s1) ->
             (sent (trace (((retrying 8 call x ≫= k) ≫= (fun _ => mret tt)) s).2)
              - sent (trace s))%nat = 8%nat).
  { intros T A call x k Hcall Hk.
    destruct (retrying_down P call x s Hlog Hcall HP) as (e & s' & Hr & Hn).
    unfold mbind, M_bind. rewrite Hr.
    specialize (Hk e x s'). destruct (k (Some e, x) s') as [[a|msg] s2];
      cbn [snd mret M_ret] in *; subst s2; rewrite Hn; lia. }
  assert (Honce : forall T A (call : T -> M State (option error * T)) x
                    (k : option error * T -> M State A),
             one_failed_attempt P call ->
             (forall e y s1, (k (Some e, y) s1).2 = s1) ->
             (sent (trace (((call x ≫= k) ≫= (fun _ => mret tt)) s).2)
              - sent (trace s))%nat = 1%nat).
  { intros T A call x k Hcall Hk.
    destruct (Hcall x s HP) as (e & s' & Hr & _ & Hn).
    unfold mbind, M_bind. rewrite Hr.
    specialize (Hk e x s'). destruct (k (Some e, x) s') as [[a|msg] s2];
      cbn [snd mret M_ret] in *; subst s2; rewrite Hn; lia. }
  destruct op; cbn [exec attempts_when_down]; unfold forget.
  - unfold SetDebug. cbn [snd trace]. lia.
  - apply Hretry; [|reflexivity]. apply doRequest_down, Hbuild. reflexivity.
  - apply Hretry; [|reflexivity]. apply doRequest_down, Hbuild. reflexivity.
  - apply Hretry; [|reflexivity]. apply doRequest_down, Hbuild. reflexivity.
  - apply Hretry; [|reflexivity]. apply doRequest_down, Hbuild. reflexivity.
  - apply Hretry; [|reflexivity]. apply doRequest_down, Hbuild. reflexivity.
  - apply Hretry; [|reflexivity]. apply doRequest_down, Hbuild. reflexivity.
  - apply Honce; [|reflexivity]. apply doRequest_down, Hbuild. reflexivity.
  - apply Honce; [|reflexivity]. apply doRequest_down, Hbuild. reflexivity.
  - apply Honce; [|reflexivity]. apply doRequest_down, Hbuild. reflexivity.
  - apply Honce; [|reflexivity]. apply doRequest_down, Hbuild. reflexivity.
  - unfold GetBuildLog.
    destruct (down_replies cl I s "GET" (GetBuildLog_path buildID) None Hdown
                (Hbuild _ _ eq_refl)) as (e & n' & Hrep & _).
    unfold mbind, M_bind.
    rewrite (doNotJSONRequest_replies s "GET" _ None _ _ Hrep).
    cbn [snd mret M_ret]. rewrite sent_after_reply. lia.
Qed.
End Facts.

(** ** The operations on a reply *)

Section Operations.
Context {E : Env}.

(** A reply that decodes, at whichever attempt of the retry loop it
    comes. *)
Lemma withRetry_loop_reply_after {T} method path data retries
    (unmarshal : bytes -> T -> option error * T) (t' : T) i k s b s1 :
  reply_after method path (json_Marshal <$> data) retries i k s b s1 ->
  forall n err target, (k < n)%nat ->
    unmarshal b target = (None, t') ->
    withRetry_loop n i retries
      (closure (doRequest method path data (Some unmarshal))) err (target, s) =
    (Ret None, (t', written s1 b)).
Proof.
  induction 1 as [i s b n' Hrep|i k s e n' b s' Hrep _ IH];
    intros n err target Hk Hdec; (destruct n as [|n]; [lia|]);
    cbn [withRetry_loop]; unfold closure at 1; cbn [fst snd].
  - rewrite (doRequest_decodes _ _ _ _ _ _ unmarshal target t' Hrep Hdec).
    reflexivity.
  - rewrite (doRequest_fails _ _ _ _ _ _ (Some unmarshal) target Hrep).
    apply IH; [lia|exact Hdec].
Qed.

Lemma retrying_decodes {T} s method path data k b s1
    (unmarshal : bytes -> T -> option error * T) (target t' : T) :
  reply_after method path (json_Marshal <$> data) 8 0 k s b s1 -> (k < 8)%nat ->
  unmarshal b target = (None, t') ->
  retrying 8 (doRequest method path data (Some unmarshal)) target s =
    (Ret (None, t'), written s1 b).
Proof.
  intros Hrep Hk Hdec. unfold retrying, withRetry.
  rewrite (withRetry_loop_reply_after _ _ _ _ unmarshal t' _ _ _ _ _ Hrep
             (Z.to_nat 8) None target ltac:(simpl; lia) Hdec).
  reflexivity.
Qed.


(** C6. A changes reply whose change list decodes to nil makes
    [GetChanges] return the nil list and the error "changes not found"; a
    tests reply that decodes makes [GetTests] return the decoded list with
    the nil error, so that an empty or absent list gives an empty list and
    no error. *)
Theorem absent_changes_and_tests (s : State) :
  (forall path body n' t,
     replies s "GET" (GetChanges_path path) None (Response body None) n' ->
     Unmarshal_changes body (mkChanges None) = (None, t) ->
     ch_Change t = None ->
     (GetChanges path s).1 = Ret (None, Some (errors_New "changes not found"))) /\
  (forall path count failingOnly ignoreMuted body n' t,
     replies s "GET" (GetTests_path path count failingOnly ignoreMuted) None
       (Response body None) n' ->
     Unmarshal_tests body (mkTests 0 "" None) = (None, t) ->
     (GetTests path count failingOnly ignoreMuted s).1 =
       Ret (ts_TestOccurrence t, None) /\
     (elems (ts_TestOccurrence t) = [] ->
      exists l, (GetTests path count failingOnly ignoreMuted s).1 = Ret (l, None) /\
                elems l = [])).
Proof.
  split.
  - intros path body n' t Hrep Hdec Hnil.
    unfold GetChanges. unfold mbind, M_bind.
    rewrite (doRequest_decodes s "GET" _ None body n' _ _ t Hrep Hdec).
    cbn beta iota. rewrite Hnil. reflexivity.
  - intros path count failingOnly ignoreMuted body n' t Hrep Hdec.
    assert (Hres : (GetTests path count failingOnly ignoreMuted s).1 =
                   Ret (ts_TestOccurrence t, None)).
    { unfold GetTests. unfold mbind, M_bind.
      rewrite (doRequest_decodes s "GET" _ None body n' _ _ t Hrep Hdec).
      reflexivity. }
    split; [exact Hres|]. intros Hempty.
    exists (ts_TestOccurrence t). split; assumption.
Qed.

(** C3, on the code.  When the reply decodes to a [builds] record whose
    build list is empty (the locator matched nothing), [GetBuildID] does
    not return: indexing the first build panics. *)
Theorem GetBuildID_no_match_panics (s : State) buildTypeID branchName buildNumber
    k body s1 (bs : builds Build) :
  reply_after "GET" (GetBuildID_path buildTypeID branchName buildNumber) None
    8 0 k s body s1 ->
  (k < 8)%nat ->
  Unmarshal_builds body None = (None, Some bs) ->
  elems (bs_Build bs) = [] ->
  (GetBuildID buildTypeID branchName buildNumber s).1 =
    Panic "index out of range [0] with length 0".
Proof.
  intros Hrep Hk Hdec Hempty.
  unfold GetBuildID. unfold mbind, M_bind.
  rewrite (retrying_decodes s "GET" _ None k body s1 _ _ (Some bs) Hrep Hk Hdec).
  cbn beta iota. rewrite Hempty. reflexivity.
Qed.

(** The other outcomes of [GetBuildID]: the first match's id in decimal
    with the nil error, and the placeholder with "build not found" when
    the reply decodes to no record at all. *)
Lemma GetBuildID_outcomes (s : State) buildTypeID branchName buildNumber
    k body s1 :
  reply_after "GET" (GetBuildID_path buildTypeID branchName buildNumber) None
    8 0 k s body s1 ->
  (k < 8)%nat ->
  (forall bs b0 rest,
     Unmarshal_builds body None = (None, Some bs) ->
     elems (bs_Build bs) = b0 :: rest ->
     (GetBuildID buildTypeID branchName buildNumber s).1 =
       Ret (pretty (Build_ID b0), None)) /\
  (Unmarshal_builds body None = (None, None) ->
   (GetBuildID buildTypeID branchName buildNumber s).1 =
     Ret ("ID not found", Some (errors_New "build not found"))).
Proof.
  intros Hrep Hk. split.
  - intros bs b0 rest Hdec Hfirst.
    unfold GetBuildID. unfold mbind, M_bind.
    rewrite (retrying_decodes s "GET" _ None k body s1 _ _ (Some bs) Hrep Hk Hdec).
    cbn beta iota. rewrite Hfirst. reflexivity.
  - intros Hdec.
    unfold GetBuildID. unfold mbind, M_bind.
    rewrite (retrying_decodes s "GET" _ None k body s1 _ _ None Hrep Hk Hdec).
    reflexivity.
Qed.
End Operations.

(** ** What [QueueBuild] sends, what [GetBuildProperties] returns *)

Section Serialization.
Context {E : Env}.







(** The loop over the properties appends one entry per pair, in the
    order of the iteration. *)
Lemma QueueBuild_query_fold (l : list (string * string)) : forall q,
  foldl (fun q kv =>
           mkJsonQuery (jq_BuildTypeID q)
             (append (jq_Properties_Property q) (mkOneProperty kv.1 kv.2))
             (jq_BranchName q) (jq_Personal q)) q l =
  mkJsonQuery (jq_BuildTypeID q)
    (match l with
     | [] => jq_Properties_Property q
     | _ => Some (elems (jq_Properties_Property q) ++
                  List.map (fun kv => mkOneProperty kv.1 kv.2) l)%list
     end)
    (jq_BranchName q) (jq_Personal q).
Proof.
  induction l as [|kv l IH]; intros q; cbn [foldl].
  - destruct q; reflexivity.
  - rewrite IH. cbn [jq_BuildTypeID jq_Properties_Property jq_BranchName jq_Personal].
    f_equal. unfold append. destruct l as [|kv' l].
    + reflexivity.
    + cbn [elems]. rewrite <- app_assoc. reflexivity.
Qed.



Lemma properties_map_snoc l prop :
  properties_map (l ++ [prop]) = <[Name prop := Value prop]> (properties_map l).
Proof. unfold properties_map. rewrite foldl_app. reflexivity. Qed.

Lemma properties_map_lookup (l : list oneProperty) (n : string) :
  properties_map l !! n = last_value n l.
Proof.
  induction l as [|prop l IH] using rev_ind.
  - reflexivity.
  - rewrite properties_map_snoc. unfold last_value in *.
    rewrite List.filter_app. cbn [List.filter].
    destruct (String.eqb_spec (Name prop) n) as [Heq|Hne].
    + rewrite Heq, lookup_insert_eq, last_snoc. reflexivity.
    + rewrite lookup_insert_ne by exact Hne. rewrite app_nil_r. exact IH.
Qed.

(** C8. The mapping [GetBuildProperties] returns gives each name the value
    of the last entry of the decoded list that bears it; the list
    a=1, a=2 gives the mapping a=2.  The reply may come at any of the 8
    attempts, the transport having failed the ones before. *)
Theorem GetBuildProperties_last_wins :
  (forall (l : list oneProperty) (n : string),
     properties_map l !! n = last_value n l) /\
  properties_map [mkOneProperty "a" "1"; mkOneProperty "a" "2"] = {["a" := "2"]} /\
  (forall (s : State) buildID k body s1 r,
     reply_after "GET" (GetBuildProperties_path buildID) None 8 0 k s body s1 ->
     (k < 8)%nat ->
     Unmarshal_response body (mkResponse None) = (None, r) ->
     (GetBuildProperties buildID s).1 =
       Ret (Some (properties_map (elems (resp_Property r))), None)).
Proof.
  split; [exact properties_map_lookup|]. split.
  - unfold properties_map. cbn [foldl Name Value].
    rewrite insert_insert_eq. reflexivity.
  - intros s buildID k body s1 r Hrep Hk Hdec.
    unfold GetBuildProperties, mbind, M_bind.
    rewrite (retrying_decodes s "GET" _ None k body s1 _ _ r Hrep Hk Hdec).
    reflexivity.
Qed.
End Serialization.

(** ** The properties at work on the test double *)

Lemma refused_down : down (E:=MockEnv) refused.
Proof.
  exists RoundTrip, (fun n => mt_err n = Some (foreign "connection refused")).
  split; [reflexivity|]. split; [reflexivity|].
  intros req n Hn. unfold RoundTrip. rewrite Hn.
  eexists _, _. split; reflexivity.
Qed.

Lemma NewTestClient_replies (body : json) method path data :
  replies (E:=MockEnv) (NewTestClient (newResponse body) None) method path data
    (Response (Some body) None)
    (mkMockTransport
       (Some (the_request (E:=MockEnv)
                (this (NewTestClient (newResponse body) None)) method path data))
       (Some None) None).
Proof. exists RoundTrip. repeat split. Qed.

(** On the recovering client the reply comes at the second attempt. *)
Lemma NewRecoveringClient_reply_after (body : json) method path data :
  exists s1,
    reply_after (E:=MockEnv) method path data 8 0 1 (NewRecoveringClient body)
      (Some body) s1.
Proof.
  eexists. eapply reply_later.
  - exists RoundTrip_recovering. repeat split.
  - apply reply_now. exists RoundTrip_recovering. repeat split.
Qed.

Lemma withRetry_8_attempts_witness :
  withRetry 8 (counted (flaky 3)) (O, (O, [])) =
    (Ret None, (3%nat, (flaky 3 (before 8 (flaky 3) 2 (O, []))).2)) /\
  exists e8, outcome 8 (flaky 9) 7 (O, []) = Ret (Some e8) /\
    withRetry 8 (counted (flaky 9)) (O, (O, [])) =
      (Ret (Some e8), (8%nat, before 8 (flaky 9) 8 (O, []))).
Proof.
  split.
  - apply (proj1 (withRetry_8_attempts (flaky 3) (O, [])) 3%nat).
    + lia.
    + intros [|[|k]] Hk; [eexists; reflexivity | eexists; reflexivity | lia].
    + reflexivity.
  - apply (proj2 (withRetry_8_attempts (flaky 9) (O, []))).
    intros k Hk. do 8 (destruct k as [|k]; [eexists; reflexivity|]). lia.
Defined.

Lemma withRetry_nonpositive_witness :
  -3 <= 0 /\
  withRetry (-3) (counted (flaky 1)) (O, (O, [])) = (Ret None, (O, (O, []))).
Proof.
  split; [lia|]. apply (withRetry_nonpositive (flaky 1) (-3) (O, []) O). lia.
Defined.

Lemma addProtocol_resolves_witness :
  one_slash_stripped "teamcity.example.com/" "teamcity.example.com" /\
  (~ contains_http_anycase "teamcity.example.com/" ->
   addProtocol (E:=MockEnv)
     (mkClient None "username" "password" "teamcity.example.com/" false)
     "/httpAuth/app/rest/buildQueue" =
   "https://" +:+ "teamcity.example.com" +:+ "/httpAuth/app/rest/buildQueue") /\
  (contains_http_anycase "teamcity.example.com/" ->
   addProtocol (E:=MockEnv)
     (mkClient None "username" "password" "teamcity.example.com/" false)
     "/httpAuth/app/rest/buildQueue" =
   "teamcity.example.com" +:+ "/httpAuth/app/rest/buildQueue").
Proof.
  split; [left; reflexivity|].
  apply (addProtocol_resolves (E:=MockEnv)
           (mkClient None "username" "password" "teamcity.example.com/" false)
           "/httpAuth/app/rest/buildQueue" "teamcity.example.com").
  left. reflexivity.
Defined.

Lemma attempts_against_down_transport_witness :
  attempts (E:=MockEnv) (CallGetBuild "42") refused = 8%nat /\
  attempts (E:=MockEnv) (CallCancelBuild 42 "stop") refused = 1%nat.
Proof.
  split.
  - apply (attempts_against_down_transport (E:=MockEnv) (CallGetBuild "42") refused).
    + exact refused_down.
    + intros method path _. reflexivity.
  - apply (attempts_against_down_transport (E:=MockEnv)
             (CallCancelBuild 42 "stop") refused).
    + exact refused_down.
    + intros method path _. reflexivity.
Defined.

(** C2, as stated, fails: against a transport that is down [GetChanges]
    makes one attempt, not 8. *)
Lemma GetChanges_not_retried : ~ every_operation_retried (E:=MockEnv).
Proof.
  intros Hall.
  specialize (Hall (CallGetChanges "/httpAuth/app/rest/changes?locator=build:(id:42)")
                refused).
  assert (Hone :
    attempts (E:=MockEnv)
      (CallGetChanges "/httpAuth/app/rest/changes?locator=build:(id:42)") refused
    = 1%nat) by (vm_compute; reflexivity).
  rewrite Hone in Hall.
  assert (H18 : 1%nat = 8%nat); [|discriminate H18].
  apply Hall.
  - eexists. reflexivity.
  - exact refused_down.
  - intros method path _. reflexivity.
Qed.

Lemma GetBuildID_no_match_panics_witness :
  (GetBuildID (E:=MockEnv) "bt" "master" "17"
     (NewTestClient (newResponse doc_no_builds) None)).1 =
    Panic "index out of range [0] with length 0" /\
  (GetBuildID (E:=MockEnv) "bt" "master" "17"
     (NewRecoveringClient doc_no_builds)).1 =
    Panic "index out of range [0] with length 0".
Proof.
  split.
  - eapply (GetBuildID_no_match_panics (E:=MockEnv)
              (NewTestClient (newResponse doc_no_builds) None) "bt" "master" "17"
              O (Some doc_no_builds) _ (mkBuilds 0 "" "" (Some []))).
    + apply reply_now, NewTestClient_replies.
    + lia.
    + reflexivity.
    + reflexivity.
  - destruct (NewRecoveringClient_reply_after doc_no_builds "GET"
                (GetBuildID_path "bt" "master" "17") None) as [s1 Hrep].
    apply (GetBuildID_no_match_panics (E:=MockEnv)
             (NewRecoveringClient doc_no_builds) "bt" "master" "17"
             1%nat (Some doc_no_builds) s1 (mkBuilds 0 "" "" (Some [])) Hrep).
    + lia.
    + reflexivity.
    + reflexivity.
Defined.


Lemma absent_changes_and_tests_witness :
  (GetChanges (E:=MockEnv) "/httpAuth/app/rest/changes?locator=build:(id:42)"
     (NewTestClient (newResponse doc_empty) None)).1 =
    Ret (None, Some (errors_New "changes not found")) /\
  (GetTests (E:=MockEnv) "/httpAuth/app/rest/testOccurrences?locator=build:(id:42)"
     100 true true (NewTestClient (newResponse doc_empty) None)).1 =
    Ret (None, None).
Proof.
  split.
  - eapply (proj1 (absent_changes_and_tests (E:=MockEnv)
                    (NewTestClient (newResponse doc_empty) None))
             _ (Some doc_empty) _ (mkChanges None)).
    + apply NewTestClient_replies.
    + reflexivity.
    + reflexivity.
  - pose proof (NewTestClient_replies doc_empty "GET"
                  (GetTests_path
                     "/httpAuth/app/rest/testOccurrences?locator=build:(id:42)"
                     100 true true) None) as Hrep.
    exact (proj1 (proj2 (absent_changes_and_tests (E:=MockEnv)
                           (NewTestClient (newResponse doc_empty) None))
                    _ 100 true true (Some doc_empty) _ (mkTests 0 "" None)
                    Hrep eq_refl)).
Defined.


Lemma GetBuildProperties_last_wins_witness :
  (GetBuildProperties (E:=MockEnv) "42"
     (NewTestClient (newResponse doc_properties) None)).1 =
    Ret (Some (properties_map [mkOneProperty "a" "1"; mkOneProperty "a" "2"]), None).
Proof.
  eapply (proj2 (proj2 (GetBuildProperties_last_wins (E:=MockEnv)))
           (NewTestClient (newResponse doc_properties) None) "42"
           O (Some doc_properties) _
           (mkResponse (Some [mkOneProperty "a" "1"; mkOneProperty "a" "2"]))).
  - apply reply_now, NewTestClient_replies.
  - lia.
  - reflexivity.
Defined.

(* ================================================================== *)
(** * Further properties of the client *)
(* ================================================================== *)

(** ** The snippet of a decoding error *)

Lemma length_substring_take s : forall n, (n <= String.length s)%nat ->
  String.length (substring 0 n s) = n.
Proof.
  induction s as [|a s IH]; intros [|n] Hn; simpl in *; try lia.
  rewrite IH by lia. reflexivity.
Qed.

Lemma truncate_is_prefix (s : string) (l : Z) :
  0 <= l -> exists rest, s = truncate s l +:+ rest.
Proof.
  intros Hl. unfold truncate.
  destruct (Z.gtb_spec (Z.of_nat (String.length s)) l) as [Hgt|Hle].
  - exists (substring (Z.to_nat l) (String.length s - Z.to_nat l) s).
    apply substring_split. lia.
  - exists "". symmetry. apply append_nil_r.
Qed.

Lemma truncate_length (s : string) (l : Z) :
  0 <= l ->
  Z.of_nat (String.length (truncate s l)) = Z.min (Z.of_nat (String.length s)) l.
Proof.
  intros Hl. unfold truncate.
  destruct (Z.gtb_spec (Z.of_nat (String.length s)) l) as [Hgt|Hle].
  - rewrite length_substring_take by lia. lia.
  - lia.
Qed.

(** X1. For a bound [l >= 0], [truncate s l] is a prefix of [s] of length
    min(len s, l), and it is [s] itself when [s] fits the bound. *)
Theorem truncate_prefix_bound (s : string) (l : Z) :
  0 <= l ->
  (exists rest, s = truncate s l +:+ rest) /\
  Z.of_nat (String.length (truncate s l)) = Z.min (Z.of_nat (String.length s)) l /\
  (Z.of_nat (String.length s) <= l -> truncate s l = s).
Proof.
  intros Hl. split; [apply truncate_is_prefix, Hl|].
  split; [apply truncate_length, Hl|].
  intros Hfit. unfold truncate.
  destruct (Z.gtb_spec (Z.of_nat (String.length s)) l) as [Hgt|Hle]; [lia|reflexivity].
Qed.

(** ** The retry loop, whatever the unit of work *)

Lemma withRetry_loop_bounded {St} `{Logger St} (f : M St (option error)) retries :
  forall n i err c s r c' s',
    withRetry_loop n i retries (counted f) err (c, s) = (r, (c', s')) ->
    (c <= c' <= c + n)%nat /\
    (n <> O -> (c < c')%nat) /\
    (forall e, r = Ret (Some e) -> c' = (c + n)%nat /\ (n = O -> err = Some e)).
Proof.
  induction n as [|n IH]; intros i err c s r c' s' Hrun; cbn [withRetry_loop] in Hrun.
  - injection Hrun as <- <- <-.
    split; [lia|]. split; [congruence|].
    intros e He. split; [lia|]. intros _. congruence.
  - unfold counted at 1 in Hrun. cbn [fst snd] in Hrun.
    destruct (f s) as [[[e|]|msg] s1].
    + change (log_Printf (RetryLine i retries e) (S c, s1))
        with (S c, log_Printf (RetryLine i retries e) s1) in Hrun.
      apply IH in Hrun as (Hb & Hpos & Herr).
      split; [lia|]. split; [lia|].
      intros e' He'. destruct (Herr e' He') as [-> _]. split; [lia|discriminate].
    + injection Hrun as <- <- <-.
      split; [lia|]. split; [lia|]. intros e' He'. discriminate He'.
    + injection Hrun as <- <- <-.
      split; [lia|]. split; [lia|]. intros e' He'. discriminate He'.
Qed.

(** X2. Whatever the unit of work does, [withRetry] invokes it at most
    [retries] times, at least once when [retries] is positive, and it
    returns an error only when all [retries] invocations have been made. *)
Theorem withRetry_bounded {St} `{Logger St} (f : M St (option error))
    (retries : Z) (c : nat) (s : St) r c' s' :
  withRetry retries (counted f) (c, s) = (r, (c', s')) ->
  (c <= c' <= c + Z.to_nat retries)%nat /\
  (0 < retries -> (c < c')%nat) /\
  (forall e, r = Ret (Some e) -> c' = (c + Z.to_nat retries)%nat /\ 0 < retries).
Proof.
  unfold withRetry. intros Hrun.
  apply withRetry_loop_bounded in Hrun as (Hb & Hpos & Herr).
  split; [exact Hb|]. split; [intros; apply Hpos; lia|].
  intros e He. destruct (Herr e He) as [Hc Hz]. split; [exact Hc|].
  destruct (Z.to_nat retries) eqn:Hn; [specialize (Hz eq_refl); discriminate|lia].
Qed.

(** ** Properties sent and properties read back *)

Section RoundTrip.
Context {E : Env}.

Lemma last_value_list_to_map (n : string) (l : list (string * string)) :
  NoDup l.*1 ->
  last_value n (List.map (fun kv => mkOneProperty kv.1 kv.2) l) =
    (list_to_map l : gmap string string) !! n.
Proof.
  induction l as [|[k v] l IH]; intros Hnd.
  - reflexivity.
  - apply NoDup_cons in Hnd as [Hk Hnd]. specialize (IH Hnd).
    cbn [List.map fst snd list_to_map foldr uncurry].
    unfold last_value in *. cbn [List.filter Name].
    destruct (String.eqb_spec k n) as [->|Hne].
    + rewrite lookup_insert_eq.
      assert (Hnone : List.filter (fun prop => String.eqb (Name prop) n)
                        (List.map (fun kv => mkOneProperty kv.1 kv.2) l) = []).
      { clear IH Hnd. induction l as [|[k' v'] l IHl]; [reflexivity|].
        cbn [List.map List.filter Name fst snd].
        destruct (String.eqb_spec k' n) as [->|_].
        - destruct Hk. cbn. left.
        - apply IHl. intros Hin. apply Hk. cbn. right. exact Hin. }
      rewrite Hnone. reflexivity.
    + rewrite lookup_insert_ne by exact Hne. exact IH.
Qed.

(** X3. The property list that [QueueBuild] puts into its query, read the
    way [GetBuildProperties] reads a property list, gives back the map the
    caller passed, in whatever order the map was iterated. *)
Theorem properties_round_trip (buildTypeID branchName : string)
    (properties : gmap string string) :
  properties_map
    (elems (jq_Properties_Property
              (QueueBuild_query buildTypeID branchName properties)))
  = properties.
Proof.
  assert (Hl : elems (jq_Properties_Property
                        (QueueBuild_query buildTypeID branchName properties)) =
               List.map (fun kv => mkOneProperty kv.1 kv.2) (range_map properties)).
  { unfold QueueBuild_query. rewrite QueueBuild_query_fold.
    cbn [jq_Properties_Property].
    destruct (negb (String.eqb branchName ""));
      cbn [jq_Properties_Property]; destruct (range_map properties); reflexivity. }
  rewrite Hl. apply map_eq. intros n.
  rewrite properties_map_lookup.
  assert (Hnd : NoDup (range_map properties).*1).
  { rewrite (range_map_perm properties). apply NoDup_fst_map_to_list. }
  rewrite (last_value_list_to_map n _ Hnd).
  rewrite (list_to_map_proper _ _ Hnd (range_map_perm properties)).
  rewrite list_to_map_to_list. reflexivity.
Qed.
End RoundTrip.

(** ** What an operation leaves in the trace *)

Section Footprint.
Context {E : Env}.

Lemma grows_by_refl Q s : grows_by Q s s.
Proof. exists []. rewrite app_nil_r. split; [reflexivity|constructor]. Qed.

Lemma grows_by_trans Q s1 s2 s3 :
  grows_by Q s1 s2 -> grows_by Q s2 s3 -> grows_by Q s1 s3.
Proof.
  intros (new1 & Hn1 & Hq1) (new2 & Hn2 & Hq2).
  exists (new1 ++ new2)%list. split.
  - rewrite Hn2, Hn1. symmetry. apply app_assoc.
  - apply Forall_app. split; assumption.
Qed.

Lemma grows_by_event (Q : event -> Prop) s ev :
  Q ev -> grows_by Q s (mkState (this s) (net s) (trace s ++ [ev])).
Proof. intros Hq. exists [ev]. split; [reflexivity|]. repeat constructor. exact Hq. Qed.

(** A tail that only computes leaves the state of its head. *)
Lemma bind_pure_tail {A B} (m : M State A) (k : A -> M State B) s :
  (forall a s1, (k a s1).2 = s1) -> ((m ≫= k) s).2 = (m s).2.
Proof.
  intros Hk. unfold mbind, M_bind. destruct (m s) as [[a|msg] s1]; cbn [snd].
  - apply Hk.
  - reflexivity.
Qed.

Lemma doNotJSONRequest_grows (Q : event -> Prop) method path data s :
  Q (EvSent (the_request (this s) method path (json_Marshal <$> data))) ->
  (debug (this s) = true -> Q (EvPrintf (addProtocol (this s) path))) ->
  grows_by Q s (doNotJSONRequest method path data s).2.
Proof.
  intros Hsent Hprint.
  assert (Hdbg : grows_by Q s
            (mkState (this s) (net s)
               (trace s ++ debug_print (this s) path))).
  { unfold debug_print. destruct (debug (this s)).
    - apply grows_by_event, Hprint. reflexivity.
    - rewrite app_nil_r. destruct s. apply grows_by_refl. }
  destruct (HTTPClient (this s)) as [cl|] eqn:Hcl;
    destruct (NewRequest_ok method (addProtocol (this s) path)) eqn:Hok.
  - destruct (cl (the_request (this s) method path (json_Marshal <$> data)) (net s))
      as [r n'] eqn:Hdo.
    rewrite (doNotJSONRequest_replies s method path data r n')
      by (exists cl; auto).
    cbn [snd]. eapply grows_by_trans; [exact Hdbg|].
    unfold after_reply. exists [EvSent (the_request (this s) method path
                                          (json_Marshal <$> data))].
    cbn [trace]. split; [apply app_assoc|]. repeat constructor. exact Hsent.
  - unfold doNotJSONRequest, http_NewRequest, mbind, M_bind, getThis.
    cbn beta iota. rewrite Hok. unfold debug_print in Hdbg.
    destruct (debug (this s)); cbn; [exact Hdbg|apply grows_by_refl].
  - unfold doNotJSONRequest, http_NewRequest, mbind, M_bind, getThis.
    cbn beta iota. rewrite Hok. unfold debug_print in Hdbg.
    destruct (debug (this s)); cbn; rewrite Hcl; cbn;
      [exact Hdbg|apply grows_by_refl].
  - unfold doNotJSONRequest, http_NewRequest, mbind, M_bind, getThis.
    cbn beta iota. rewrite Hok. unfold debug_print in Hdbg.
    destruct (debug (this s)); cbn; [exact Hdbg|apply grows_by_refl].
Qed.

Lemma doRequest_grows {T} (Q : event -> Prop) method path data
    (v : option (bytes -> T -> option error * T)) target s :
  Q (EvSent (the_request (this s) method path (json_Marshal <$> data))) ->
  (debug (this s) = true -> Q (EvPrintf (addProtocol (this s) path))) ->
  (forall b, Q (EvWriteFile b)) ->
  grows_by Q s (doRequest method path data v target s).2.
Proof.
  intros Hsent Hprint Hfile.
  pose proof (doNotJSONRequest_grows Q method path data s Hsent Hprint) as Hgrow.
  unfold doRequest, mbind, M_bind.
  destruct (doNotJSONRequest method path data s) as [[[jsonCnt [e|]]|msg] s1];
    cbn [snd] in *; try exact Hgrow.
  unfold emit. cbn beta iota.
  eapply grows_by_trans; [exact Hgrow|].
  assert (Hw : grows_by Q s1
                 (mkState (this s1) (net s1) (trace s1 ++ [EvWriteFile jsonCnt])))
    by apply grows_by_event, Hfile.
  destruct v as [unmarshal|]; [|exact Hw].
  destruct (unmarshal jsonCnt target) as [[e|] t']; exact Hw.
Qed.

(** An invariant of the unit of work that the log lines of the loop keep
    is an invariant of the loop. *)
Lemma withRetry_loop_invariant_lines {St} `{Logger St} (I : St -> Prop)
    (f : M St (option error)) (retries : Z) :
  (forall s, I s -> I (f s).2) ->
  forall n i,
    (forall j e s, i <= j < i + Z.of_nat n -> I s ->
                   I (log_Printf (RetryLine j retries e) s)) ->
    forall err s, I s -> I (withRetry_loop n i retries f err s).2.
Proof.
  intros Hf. induction n as [|n IH]; intros i Hlog err s Hs; cbn [withRetry_loop].
  - exact Hs.
  - specialize (Hf s Hs). destruct (f s) as [[[e|]|msg] s1]; cbn [snd] in *.
    + apply IH.
      * intros j e' s' Hj. apply Hlog. lia.
      * apply Hlog; [lia|exact Hf].
    + exact Hf.
    + exact Hf.
Qed.

Lemma retrying_grows {T} (Q : event -> Prop) method path data
    (v : option (bytes -> T -> option error * T)) target s :
  Q (EvSent (the_request (this s) method path (json_Marshal <$> data))) ->
  (debug (this s) = true -> Q (EvPrintf (addProtocol (this s) path))) ->
  (forall b, Q (EvWriteFile b)) ->
  (forall j e, 0 <= j < 8 -> Q (EvLog (RetryLine j 8 e))) ->
  grows_by Q s (retrying 8 (doRequest method path data v) target s).2.
Proof.
  intros Hsent Hprint Hfile Hline.
  set (I := fun ts : T * State => this ts.2 = this s /\ grows_by Q s ts.2).
  assert (Hinv : I (withRetry_loop (Z.to_nat 8) 0 8
                      (closure (doRequest method path data v)) None (target, s)).2).
  { apply (withRetry_loop_invariant_lines I).
    - intros [x s1] [Hthis Hgrow]. unfold I, closure. cbn [fst snd] in *.
      pose proof (frames_doRequest method path data v x s1) as Hfr.
      pose proof (doRequest_grows Q method path data v x s1) as Hg.
      rewrite Hthis in Hg. specialize (Hg Hsent Hprint Hfile).
      destruct (doRequest method path data v x s1) as [[[err x1]|msg] s2];
        cbn [snd] in *; (split; [congruence|]);
        eapply grows_by_trans; eassumption.
    - intros j e [x s1] Hj [Hthis Hgrow]. unfold I. split; [exact Hthis|].
      eapply grows_by_trans; [exact Hgrow|].
      apply grows_by_event, Hline. simpl in Hj. lia.
    - split; [reflexivity|apply grows_by_refl]. }
  unfold retrying, withRetry.
  destruct (withRetry_loop _ _ _ _ _ _) as [[err|msg] [x1 s1]]; apply Hinv.
Qed.

(** Every event a call adds to the trace is in its footprint. *)
Lemma exec_footprint (op : call) (s : State) :
  grows_by (footprint (this s) op) s (exec op s).2.
Proof.
  assert (Hretry : forall T A method path data
                     (v : option (bytes -> T -> option error * T)) target
                     (k : option error * T -> M State A),
             request_line op = Some (method, path) ->
             request_body op = data ->
             attempts_when_down op = 8%nat ->
             (forall id, op <> CallGetBuildLog id) ->
             (forall a s1, (k a s1).2 = s1) ->
             grows_by (footprint (this s) op) s
               (forget (retrying 8 (doRequest method path data v) target ≫= k) s).2).
  { intros T A method path data v target k Hline Hbody Hatt Hlog Hk.
    unfold forget. rewrite bind_pure_tail by reflexivity.
    rewrite bind_pure_tail by exact Hk.
    apply retrying_grows; unfold footprint; rewrite Hline, ?Hbody; auto. }
  assert (Honce : forall T A method path data
                    (v : option (bytes -> T -> option error * T)) target
                    (k : option error * T -> M State A),
             request_line op = Some (method, path) ->
             request_body op = data ->
             (forall id, op <> CallGetBuildLog id) ->
             (forall a s1, (k a s1).2 = s1) ->
             grows_by (footprint (this s) op) s
               (forget (doRequest method path data v target ≫= k) s).2).
  { intros T A method path data v target k Hline Hbody Hlog Hk.
    unfold forget. rewrite bind_pure_tail by reflexivity.
    rewrite bind_pure_tail by exact Hk.
    apply doRequest_grows; unfold footprint; rewrite Hline, ?Hbody; auto. }
  destruct op; cbn [exec].
  - unfold SetDebug. cbn [snd]. exists []. cbn [trace].
    rewrite app_nil_r. split; [reflexivity|constructor].
  - apply Hretry; try reflexivity; try discriminate.
    intros [[e|] b] s1; [reflexivity|].
    unfold mbind, M_bind, lift. destruct (call_convertInputs b); reflexivity.
  - apply Hretry; try reflexivity; try discriminate.
    intros [[e|] b] s1; [reflexivity|].
    unfold mbind, M_bind, lift. destruct (convert_builds (rs_Build b)); reflexivity.
  - apply Hretry; try reflexivity; try discriminate.
    intros [[e|] b] s1; [reflexivity|].
    unfold mbind, M_bind, lift. destruct (convert_builds (rs_Build b)); reflexivity.
  - apply Hretry; try reflexivity; try discriminate.
    intros [[e|] [b|]] s1; reflexivity.
  - apply Hretry; try reflexivity; try discriminate.
    intros [[e|] [b|]] s1; try reflexivity.
    destruct (elems (bs_Build b)); reflexivity.
  - apply Hretry; try reflexivity; try discriminate.
    intros [[e|] b] s1; reflexivity.
  - apply Honce; try reflexivity; try discriminate.
    intros [[e|] b] s1; [reflexivity|]. destruct (ch_Change b); reflexivity.
  - apply Honce; try reflexivity; try discriminate.
    intros [[e|] b] s1; [reflexivity|].
    destruct (pr_ProblemOccurrence b); reflexivity.
  - apply Honce; try reflexivity; try discriminate.
    intros [[e|] b] s1; reflexivity.
  - apply Honce; try reflexivity; try discriminate.
    intros [e u] s1; reflexivity.
  - unfold forget, GetBuildLog. rewrite bind_pure_tail by reflexivity.
    rewrite bind_pure_tail by (intros [cnt err] s1; reflexivity).
    apply doNotJSONRequest_grows; unfold footprint; cbn [request_line]; auto.
Qed.
End Footprint.

Section FootprintFacts.
Context {E : Env}.

(** X4. Every request that an operation hands to the transport has the
    operation's method, the URL resolved from the client's host and the
    operation's path, the client's username and password as basic
    authentication, the Accept header for JSON, and the body of the
    operation: none for the GET operations, the marshalled document with a
    Content-Type header for [QueueBuild] and [CancelBuild]. *)
Theorem requests_well_formed (op : call) (s : State) :
  exists new,
    trace (exec op s).2 = (trace s ++ new)%list /\
    forall req, In (EvSent req) new ->
      exists method path,
        request_line op = Some (method, path) /\
        req_method req = method /\
        req_url req = addProtocol (this s) path /\
        req_basicAuth req = Some (username (this s), password (this s)) /\
        req_body req = json_Marshal <$> request_body op /\
        req_header req =
          ("Accept", "application/json") ::
          match request_body op with
          | Some _ => [("Content-Type", "application/json")]
          | None => []
          end.
Proof.
  destruct (exec_footprint op s) as (new & Hnew & Hall).
  exists new. split; [exact Hnew|].
  intros req Hin. rewrite Forall_forall in Hall.
  apply list_elem_of_In in Hin. specialize (Hall _ Hin).
  unfold footprint in Hall.
  destruct (request_line op) as [[method path]|]; [|destruct Hall].
  exists method, path. subst req. cbn.
  repeat split. destruct (request_body op); reflexivity.
Qed.

(** X5. An operation prints only when the debug flag is on, and then
    only the resolved URL of its request; only the operations under the
    retry policy write log lines, each with the bound 8 and an attempt
    index from 0 to 7; [GetBuildLog] never writes the scratch file. *)
Theorem side_effects_confined (op : call) (s : State) :
  exists new,
    trace (exec op s).2 = (trace s ++ new)%list /\
    (forall authURL, In (EvPrintf authURL) new ->
       debug (this s) = true /\
       exists method path, request_line op = Some (method, path) /\
                           authURL = addProtocol (this s) path) /\
    (forall l, In (EvLog l) new ->
       attempts_when_down op = 8%nat /\ ll_retries l = 8 /\ 0 <= ll_i l < 8) /\
    (forall data, In (EvWriteFile data) new -> forall id, op <> CallGetBuildLog id).
Proof.
  destruct (exec_footprint op s) as (new & Hnew & Hall).
  exists new. split; [exact Hnew|].
  rewrite Forall_forall in Hall. unfold footprint in Hall.
  split; [|split].
  - intros u Hin. apply list_elem_of_In in Hin. specialize (Hall _ Hin).
    destruct (request_line op) as [[method path]|]; [|destruct Hall].
    destruct Hall as [Hd Hu]. split; [exact Hd|]. exists method, path. auto.
  - intros l Hin. apply list_elem_of_In in Hin. specialize (Hall _ Hin).
    destruct (request_line op) as [[method path]|]; [exact Hall|destruct Hall].
  - intros b Hin. apply list_elem_of_In in Hin. specialize (Hall _ Hin).
    destruct (request_line op) as [[method path]|]; [exact Hall|destruct Hall].
Qed.
End FootprintFacts.

(** ** The operations outside the retry policy *)

Section SingleShot.
Context {E : Env}.

(** A reply whose body could not be read to its end. *)
Lemma doRequest_read_error {T} s method path data b e n'
    (v : option (bytes -> T -> option error * T)) (target : T) :
  replies s method path (json_Marshal <$> data) (Response b (Some e)) n' ->
  doRequest method path data v target s =
    (Ret (Some e, target), after_reply s method path (json_Marshal <$> data) n').
Proof.
  intros Hrep. unfold doRequest.
  unfold mbind at 1. unfold M_bind at 1.
  rewrite (doNotJSONRequest_replies _ _ _ _ _ _ Hrep).
  reflexivity.
Qed.

(** A reply that is read and does not decode. *)
Lemma doRequest_undecodable {T} s method path data b n'
    (unmarshal : bytes -> T -> option error * T) (target t' : T) cause :
  replies s method path (json_Marshal <$> data) (Response b None) n' ->
  unmarshal b target = (Some cause, t') ->
  doRequest method path data (Some unmarshal) target s =
    (Ret (Some (Errorf_unmarshal cause (truncate (bytes_string b) 1000)), t'),
     written (after_reply s method path (json_Marshal <$> data) n') b).
Proof.
  intros Hrep Hdec. unfold doRequest.
  unfold mbind at 1. unfold M_bind at 1.
  rewrite (doNotJSONRequest_replies _ _ _ _ _ _ Hrep).
  cbn beta iota. unfold mbind, M_bind, emit. cbn [this net trace].
  rewrite Hdec. reflexivity.
Qed.

(** A reply that is read, for a call that decodes nothing. *)
Lemma doRequest_undecoded {T} s method path data b n' (target : T) :
  replies s method path (json_Marshal <$> data) (Response b None) n' ->
  doRequest method path data None target s =
    (Ret (None, target),
     written (after_reply s method path (json_Marshal <$> data) n') b).
Proof.
  intros Hrep. unfold doRequest.
  unfold mbind at 1. unfold M_bind at 1.
  rewrite (doNotJSONRequest_replies _ _ _ _ _ _ Hrep).
  reflexivity.
Qed.

Lemma doRequest_failed {T} s method path data r e n'
    (v : option (bytes -> T -> option error * T)) (target : T) :
  (r = DoError e \/ exists b, r = Response b (Some e)) ->
  replies s method path (json_Marshal <$> data) r n' ->
  doRequest method path data v target s =
    (Ret (Some e, target), after_reply s method path (json_Marshal <$> data) n').
Proof.
  intros [->|[b ->]] Hrep.
  - apply doRequest_fails, Hrep.
  - eapply doRequest_read_error, Hrep.
Qed.

(** X6. The operations outside the retry policy give up at the first
    failure: an error of the transport, or of the read of the body, comes
    back as it is, with a nil result (and, for the raw log, with the text
    read so far); one request has been sent and nothing else has been
    done. *)
Theorem single_shot_errors (s : State) (r : HttpResult bytes) (e : error)
    (n' : netstate) :
  (r = DoError e \/ exists b, r = Response b (Some e)) ->
  (forall path,
     replies s "GET" (GetChanges_path path) None r n' ->
     GetChanges path s =
       (Ret (None, Some e), after_reply s "GET" (GetChanges_path path) None n')) /\
  (forall path count,
     replies s "GET" (GetProblems_path path count) None r n' ->
     GetProblems path count s =
       (Ret (None, Some e),
        after_reply s "GET" (GetProblems_path path count) None n')) /\
  (forall path count failingOnly ignoreMuted,
     replies s "GET" (GetTests_path path count failingOnly ignoreMuted) None r n' ->
     GetTests path count failingOnly ignoreMuted s =
       (Ret (None, Some e),
        after_reply s "GET" (GetTests_path path count failingOnly ignoreMuted)
          None n')) /\
  (forall buildID comment,
     replies s "POST" (CancelBuild_path buildID)
       (Some (json_Marshal (marshal_cancel comment))) r n' ->
     CancelBuild buildID comment s =
       (Ret (Some e),
        after_reply s "POST" (CancelBuild_path buildID)
          (Some (json_Marshal (marshal_cancel comment))) n')) /\
  (forall buildID,
     replies s "GET" (GetBuildLog_path buildID) None r n' ->
     GetBuildLog buildID s =
       (Ret (bytes_string match r with
                          | DoError _ => bytes_empty
                          | Response b _ => b
                          end, Some e),
        after_reply s "GET" (GetBuildLog_path buildID) None n')).
Proof.
  intros Hr. repeat split.
  - intros path Hrep. unfold GetChanges, mbind, M_bind.
    rewrite (doRequest_failed s "GET" _ None r e n' _ _ Hr Hrep). reflexivity.
  - intros path count Hrep. unfold GetProblems, mbind, M_bind.
    rewrite (doRequest_failed s "GET" _ None r e n' _ _ Hr Hrep). reflexivity.
  - intros path count fo im Hrep. unfold GetTests, mbind, M_bind.
    rewrite (doRequest_failed s "GET" _ None r e n' _ _ Hr Hrep). reflexivity.
  - intros buildID comment Hrep. unfold CancelBuild, mbind, M_bind.
    rewrite (doRequest_failed s "POST" _ (Some (marshal_cancel comment)) r e n'
               _ _ Hr Hrep).
    reflexivity.
  - intros buildID Hrep. unfold GetBuildLog, mbind, M_bind.
    rewrite (doNotJSONRequest_replies s "GET" _ None r n' Hrep).
    destruct Hr as [->|[b ->]]; reflexivity.
Qed.

(** X7. When the reply is read but does not decode, the operations
    outside the retry policy return a nil result and the decoding error
    wrapped with a snippet of the payload: a prefix of its text of at most
    1000 bytes.  The payload has been written to the scratch file all the
    same. *)
Theorem decode_error_snippet (s : State) (b : bytes) (cause : error)
    (n' : netstate) :
  exists snippet,
    (exists rest, bytes_string b = snippet +:+ rest) /\
    (String.length snippet <= 1000)%nat /\
    (forall path t,
       replies s "GET" (GetChanges_path path) None (Response b None) n' ->
       Unmarshal_changes b (mkChanges None) = (Some cause, t) ->
       GetChanges path s =
         (Ret (None, Some (Errorf_unmarshal cause snippet)),
          written (after_reply s "GET" (GetChanges_path path) None n') b)) /\
    (forall path count t,
       replies s "GET" (GetProblems_path path count) None (Response b None) n' ->
       Unmarshal_problems b (mkProblems 0 false None) = (Some cause, t) ->
       GetProblems path count s =
         (Ret (None, Some (Errorf_unmarshal cause snippet)),
          written (after_reply s "GET" (GetProblems_path path count) None n') b)) /\
    (forall path count failingOnly ignoreMuted t,
       replies s "GET" (GetTests_path path count failingOnly ignoreMuted) None
         (Response b None) n' ->
       Unmarshal_tests b (mkTests 0 "" None) = (Some cause, t) ->
       GetTests path count failingOnly ignoreMuted s =
         (Ret (None, Some (Errorf_unmarshal cause snippet)),
          written
            (after_reply s "GET" (GetTests_path path count failingOnly ignoreMuted)
               None n') b)).
Proof.
  exists (truncate (bytes_string b) 1000).
  split; [apply truncate_is_prefix; lia|].
  split; [pose proof (truncate_length (bytes_string b) 1000 ltac:(lia)); lia|].
  repeat split.
  - intros path t Hrep Hdec. unfold GetChanges, mbind, M_bind.
    rewrite (doRequest_undecodable s "GET" _ None b n' _ _ t cause Hrep Hdec).
    reflexivity.
  - intros path count t Hrep Hdec. unfold GetProblems, mbind, M_bind.
    rewrite (doRequest_undecodable s "GET" _ None b n' _ _ t cause Hrep Hdec).
    reflexivity.
  - intros path count fo im t Hrep Hdec. unfold GetTests, mbind, M_bind.
    rewrite (doRequest_undecodable s "GET" _ None b n' _ _ t cause Hrep Hdec).
    reflexivity.
Qed.

(** X8. [CancelBuild] and [GetBuildLog] decode nothing: whatever payload
    is read without error, [CancelBuild] returns the nil error and
    [GetBuildLog] returns the text of the payload; [CancelBuild] leaves the
    payload in the scratch file, [GetBuildLog] does not. *)
Theorem undecoded_replies (s : State) (b : bytes) (n' : netstate) :
  (forall buildID comment,
     replies s "POST" (CancelBuild_path buildID)
       (Some (json_Marshal (marshal_cancel comment))) (Response b None) n' ->
     CancelBuild buildID comment s =
       (Ret None,
        written (after_reply s "POST" (CancelBuild_path buildID)
                   (Some (json_Marshal (marshal_cancel comment))) n') b)) /\
  (forall buildID,
     replies s "GET" (GetBuildLog_path buildID) None (Response b None) n' ->
     GetBuildLog buildID s =
       (Ret (bytes_string b, None),
        after_reply s "GET" (GetBuildLog_path buildID) None n')).
Proof.
  split.
  - intros buildID comment Hrep. unfold CancelBuild, mbind, M_bind.
    rewrite (doRequest_undecoded s "POST" _ (Some (marshal_cancel comment)) b n'
               tt Hrep).
    reflexivity.
  - intros buildID Hrep. unfold GetBuildLog, mbind, M_bind.
    rewrite (doNotJSONRequest_replies s "GET" _ None _ n' Hrep). reflexivity.
Qed.

(** X9. [GetChanges] and [GetProblems] tell a list that is absent from one
    that is empty: a decoded list that is not nil, empty or not, is
    returned with the nil error; a nil problem list makes [GetProblems]
    fail with "problemOccurrence list not found". *)
Theorem present_lists_returned (s : State) (b : bytes) (n' : netstate) :
  (forall path t l,
     replies s "GET" (GetChanges_path path) None (Response b None) n' ->
     Unmarshal_changes b (mkChanges None) = (None, t) ->
     ch_Change t = Some l ->
     (GetChanges path s).1 = Ret (Some l, None)) /\
  (forall path count t l,
     replies s "GET" (GetProblems_path path count) None (Response b None) n' ->
     Unmarshal_problems b (mkProblems 0 false None) = (None, t) ->
     pr_ProblemOccurrence t = Some l ->
     (GetProblems path count s).1 = Ret (Some l, None)) /\
  (forall path count t,
     replies s "GET" (GetProblems_path path count) None (Response b None) n' ->
     Unmarshal_problems b (mkProblems 0 false None) = (None, t) ->
     pr_ProblemOccurrence t = None ->
     (GetProblems path count s).1 =
       Ret (None, Some (errors_New "problemOccurrence list not found"))).
Proof.
  repeat split.
  - intros path t l Hrep Hdec Hl. unfold GetChanges, mbind, M_bind.
    rewrite (doRequest_decodes s "GET" _ None b n' _ _ t Hrep Hdec).
    cbn beta iota. rewrite Hl. reflexivity.
  - intros path count t l Hrep Hdec Hl. unfold GetProblems, mbind, M_bind.
    rewrite (doRequest_decodes s "GET" _ None b n' _ _ t Hrep Hdec).
    cbn beta iota. rewrite Hl. reflexivity.
  - intros path count t Hrep Hdec Hl. unfold GetProblems, mbind, M_bind.
    rewrite (doRequest_decodes s "GET" _ None b n' _ _ t Hrep Hdec).
    cbn beta iota. rewrite Hl. reflexivity.
Qed.
End SingleShot.

(** ** The operations under the retry policy *)

Section Retried.
Context {E : Env}.

(** The error the loop ends with after the failures [errs]. *)
Lemma withRetry_loop_failing {T} method path data retries
    (v : option (bytes -> T -> option error * T)) i errs s s' :
  failing method path (json_Marshal <$> data) retries i errs s s' ->
  forall err target,
    withRetry_loop (length errs) i retries
      (closure (doRequest method path data v)) err (target, s) =
    (Ret (match last errs with Some e => Some e | None => err end), (target, s')).
Proof.
  induction 1 as [i s|i e errs s n' s' Hrep _ IH]; intros err target.
  - reflexivity.
  - cbn [length withRetry_loop]. unfold closure at 1. cbn [fst snd].
    rewrite (doRequest_fails _ _ _ _ _ _ v target Hrep).
    change (log_Printf (RetryLine i retries e)
              (target, after_reply s method path (json_Marshal <$> data) n'))
      with (target, log_Printf (RetryLine i retries e)
                      (after_reply s method path (json_Marshal <$> data) n')).
    rewrite IH. destruct errs as [|e' errs]; [reflexivity|].
    change (last (e :: e' :: errs)) with (last (e' :: errs)).
    destruct (last (e' :: errs)) eqn:Hl; [reflexivity|].
    apply last_None in Hl. discriminate Hl.
Qed.

Lemma retrying_failing {T} method path data
    (v : option (bytes -> T -> option error * T)) errs e8 s s' target :
  length errs = 8%nat -> last errs = Some e8 ->
  failing method path (json_Marshal <$> data) 8 0 errs s s' ->
  retrying 8 (doRequest method path data v) target s =
    (Ret (Some e8, target), s').
Proof.
  intros Hlen Hlast Hfail. unfold retrying, withRetry.
  replace (Z.to_nat 8) with (length errs) by (rewrite Hlen; reflexivity).
  rewrite (withRetry_loop_failing _ _ _ _ v _ _ _ _ Hfail), Hlast. reflexivity.
Qed.

(** What the failures leave in the trace. *)
Lemma failing_trace method path body retries i errs s s' :
  failing method path body retries i errs s s' ->
  exists new,
    trace s' = (trace s ++ new)%list /\
    sent new = length errs /\
    forall (j : nat) e, errs !! j = Some e ->
      In (EvLog (RetryLine (i + Z.of_nat j) retries e)) new.
Proof.
  induction 1 as [i s|i e errs s n' s' Hrep _ IH].
  - exists []. rewrite app_nil_r. repeat split. intros j e Hj. discriminate Hj.
  - destruct IH as (new & Hnew & Hsent & Hlog).
    exists (debug_print (this s) path ++
            [EvSent (the_request (this s) method path body)] ++
            [EvLog (RetryLine i retries e)] ++ new)%list.
    split; [|split].
    + rewrite Hnew. unfold log_Printf, Logger_State, after_reply. cbn [trace].
      rewrite <- !app_assoc. reflexivity.
    + rewrite !sent_app, sent_debug_print, Hsent. reflexivity.
    + intros [|j] e' Hj.
      * injection Hj as <-. replace (i + Z.of_nat 0) with i by lia.
        apply in_or_app. right. right. left. reflexivity.
      * apply in_or_app. right. right. right.
        replace (i + Z.of_nat (S j)) with (i + 1 + Z.of_nat j) by lia.
        apply Hlog, Hj.
Qed.

(** X10. When the transport fails all 8 attempts, an operation under the
    retry policy returns the error of the last attempt, with a nil result
    (the placeholder "ID not found" for [GetBuildID]); it has sent 8
    requests and logged each failure with its attempt index and the
    bound. *)
Theorem retry_exhausted (s s' : State) (errs : list error) (e8 : error) :
  length errs = 8%nat -> last errs = Some e8 ->
  (forall bt br props,
     failing "POST" QueueBuild_path
       (Some (json_Marshal (marshal_jsonQuery (QueueBuild_query bt br props))))
       8 0 errs s s' ->
     QueueBuild bt br props s = (Ret (None, Some e8), s')) /\
  (forall locator,
     failing "GET" (SearchBuild_path locator) None 8 0 errs s s' ->
     SearchBuild locator s = (Ret (None, Some e8), s')) /\
  (forall locator,
     failing "GET" (GetQueuedBuilds_path locator) None 8 0 errs s s' ->
     GetQueuedBuilds locator s = (Ret (None, Some e8), s')) /\
  (forall buildID,
     failing "GET" (GetBuild_path buildID) None 8 0 errs s s' ->
     GetBuild buildID s = (Ret (None, Some e8), s')) /\
  (forall bt br n,
     failing "GET" (GetBuildID_path bt br n) None 8 0 errs s s' ->
     GetBuildID bt br n s = (Ret ("ID not found", Some e8), s')) /\
  (forall buildID,
     failing "GET" (GetBuildProperties_path buildID) None 8 0 errs s s' ->
     GetBuildProperties buildID s = (Ret (None, Some e8), s')) /\
  (forall method path body,
     failing method path body 8 0 errs s s' ->
     exists new,
       trace s' = (trace s ++ new)%list /\ sent new = 8%nat /\
       forall (j : nat) e, errs !! j = Some e ->
         In (EvLog (RetryLine (Z.of_nat j) 8 e)) new).
Proof.
  intros Hlen Hlast. repeat split.
  - intros bt br props Hfail. unfold QueueBuild, mbind, M_bind.
    rewrite (retrying_failing "POST" _ (Some _) _ errs e8 s s' _ Hlen Hlast Hfail).
    reflexivity.
  - intros locator Hfail. unfold SearchBuild, mbind, M_bind.
    rewrite (retrying_failing "GET" _ None _ errs e8 s s' _ Hlen Hlast Hfail).
    reflexivity.
  - intros locator Hfail. unfold GetQueuedBuilds, mbind, M_bind.
    rewrite (retrying_failing "GET" _ None _ errs e8 s s' _ Hlen Hlast Hfail).
    reflexivity.
  - intros buildID Hfail. unfold GetBuild, mbind, M_bind.
    rewrite (retrying_failing "GET" _ None _ errs e8 s s' _ Hlen Hlast Hfail).
    reflexivity.
  - intros bt br n Hfail. unfold GetBuildID, mbind, M_bind.
    rewrite (retrying_failing "GET" _ None _ errs e8 s s' _ Hlen Hlast Hfail).
    reflexivity.
  - intros buildID Hfail. unfold GetBuildProperties, mbind, M_bind.
    rewrite (retrying_failing "GET" _ None _ errs e8 s s' _ Hlen Hlast Hfail).
    reflexivity.
  - intros method path body Hfail.
    destruct (failing_trace _ _ _ _ _ _ _ _ Hfail) as (new & Hnew & Hsent & Hlog).
    exists new. split; [exact Hnew|]. split; [congruence|].
    intros j e Hj. specialize (Hlog j e Hj).
    replace (0 + Z.of_nat j) with (Z.of_nat j) in Hlog by lia. exact Hlog.
Qed.

Lemma convertInputs_each_present (bs : list Build) :
  convertInputs_each (Some <$> bs) = Ret ((fun b => Some (convertInputs b)) <$> bs).
Proof.
  induction bs as [|b bs IH]; [reflexivity|].
  cbn [fmap list_fmap convertInputs_each call_convertInputs] in *.
  rewrite IH. reflexivity.
Qed.

(** X11. Builds that come back from [QueueBuild], [SearchBuild] and
    [GetQueuedBuilds] have gone through [convertInputs], each of them and in
    the order of the reply; the build that comes back from [GetBuild] is
    the decoded record as it is.  A nil build list makes [GetQueuedBuilds]
    return the nil list and the nil error.  The reply may come at any of
    the 8 attempts, the transport having failed the ones before. *)
Theorem decoded_builds_converted (s s1 : State) (k : nat) (body : bytes) :
  (k < 8)%nat ->
  (forall bt br props b,
     reply_after "POST" QueueBuild_path
       (Some (json_Marshal (marshal_jsonQuery (QueueBuild_query bt br props))))
       8 0 k s body s1 ->
     Unmarshal_Build body (Some Build_zero) = (None, Some b) ->
     (QueueBuild bt br props s).1 = Ret (Some (convertInputs b), None)) /\
  (forall locator t bs,
     reply_after "GET" (SearchBuild_path locator) None 8 0 k s body s1 ->
     Unmarshal_respStruct body (mkRespStruct 0 None) = (None, t) ->
     rs_Build t = Some (Some <$> bs) ->
     (SearchBuild locator s).1 =
       Ret (Some ((fun b => Some (convertInputs b)) <$> bs), None)) /\
  (forall locator t bs,
     reply_after "GET" (GetQueuedBuilds_path locator) None 8 0 k s body s1 ->
     Unmarshal_respStruct body (mkRespStruct 0 None) = (None, t) ->
     rs_Build t = Some (Some <$> bs) ->
     (GetQueuedBuilds locator s).1 =
       Ret (Some ((fun b => Some (convertInputs b)) <$> bs), None)) /\
  (forall locator t,
     reply_after "GET" (GetQueuedBuilds_path locator) None 8 0 k s body s1 ->
     Unmarshal_respStruct body (mkRespStruct 0 None) = (None, t) ->
     rs_Build t = None ->
     (GetQueuedBuilds locator s).1 = Ret (None, None)) /\
  (forall buildID b,
     reply_after "GET" (GetBuild_path buildID) None 8 0 k s body s1 ->
     Unmarshal_Build body None = (None, Some b) ->
     (GetBuild buildID s).1 = Ret (Some b, None)).
Proof.
  intros Hk. repeat split.
  - intros bt br props b Hrep Hdec. unfold QueueBuild, mbind, M_bind.
    rewrite (retrying_decodes s "POST" _ (Some _) k body s1 _ _ (Some b) Hrep Hk Hdec).
    reflexivity.
  - intros locator t bs Hrep Hdec Hbs. unfold SearchBuild, mbind, M_bind.
    rewrite (retrying_decodes s "GET" _ None k body s1 _ _ t Hrep Hk Hdec).
    cbn beta iota. rewrite Hbs. unfold lift, convert_builds.
    rewrite convertInputs_each_present. reflexivity.
  - intros locator t bs Hrep Hdec Hbs. unfold GetQueuedBuilds, mbind, M_bind.
    rewrite (retrying_decodes s "GET" _ None k body s1 _ _ t Hrep Hk Hdec).
    cbn beta iota. rewrite Hbs. unfold lift, convert_builds.
    rewrite convertInputs_each_present. reflexivity.
  - intros locator t Hrep Hdec Hbs. unfold GetQueuedBuilds, mbind, M_bind.
    rewrite (retrying_decodes s "GET" _ None k body s1 _ _ t Hrep Hk Hdec).
    cbn beta iota. rewrite Hbs. reflexivity.
  - intros buildID b Hrep Hdec. unfold GetBuild, mbind, M_bind.
    rewrite (retrying_decodes s "GET" _ None k body s1 _ _ (Some b) Hrep Hk Hdec).
    reflexivity.
Qed.
End Retried.

(** ** Crashes *)

Section Crashes.
Context {E : Env}.

Lemma doNotJSONRequest_panics method path data s :
  HTTPClient (this s) = None \/
  NewRequest_ok method (addProtocol (this s) path) = false ->
  doNotJSONRequest method path data s =
    (Panic "invalid memory address or nil pointer dereference",
     mkState (this s) (net s) (trace s ++ debug_print (this s) path)).
Proof.
  intros Hbad.
  unfold doNotJSONRequest, http_NewRequest, debug_print, mbind, M_bind, getThis.
  cbn beta iota.
  destruct (NewRequest_ok method (addProtocol (this s) path)) eqn:Hok.
  - destruct Hbad as [Hnil|Hbad]; [|discriminate Hbad].
    destruct (debug (this s)); cbn; rewrite Hnil; cbn.
    + reflexivity.
    + rewrite app_nil_r. destruct s; reflexivity.
  - destruct (debug (this s)); cbn.
    + reflexivity.
    + rewrite app_nil_r. destruct s; reflexivity.
Qed.

Lemma retrying_panics {T} (call : T -> M State (option error * T)) x s msg s' :
  call x s = (Panic msg, s') ->
  retrying 8 call x s = (Panic msg, s').
Proof.
  intros Hcall. unfold retrying, withRetry.
  change (Z.to_nat 8) with 8%nat. cbn [withRetry_loop].
  unfold closure at 1. cbn [fst snd]. rewrite Hcall. reflexivity.
Qed.

(** X12. With a nil [HTTPClient], or with a method and URL that
    [http.NewRequest] refuses, every operation that talks to the server
    panics with a nil dereference instead of returning an error; it has
    sent nothing, and has printed its URL if debug is on. *)
Theorem crashes_without_transport_or_url (op : call) (s : State)
    (method path : string) :
  request_line op = Some (method, path) ->
  HTTPClient (this s) = None \/
  NewRequest_ok method (addProtocol (this s) path) = false ->
  exec op s =
    (Panic "invalid memory address or nil pointer dereference",
     mkState (this s) (net s) (trace s ++ debug_print (this s) path)).
Proof.
  intros Hline Hbad.
  assert (Hdo : forall T data (v : option (bytes -> T -> option error * T)) target,
            doRequest method path data v target s =
              (Panic "invalid memory address or nil pointer dereference",
               mkState (this s) (net s) (trace s ++ debug_print (this s) path))).
  { intros T data v target. unfold doRequest.
    unfold mbind at 1. unfold M_bind at 1.
    rewrite (doNotJSONRequest_panics method path data s Hbad). reflexivity. }
  destruct op; cbn [request_line] in Hline; try discriminate Hline;
    injection Hline as <- <-; cbn [exec]; unfold forget.
  - unfold QueueBuild, mbind, M_bind.
    rewrite (retrying_panics _ _ _ _ _ (Hdo _ _ _ _)). reflexivity.
  - unfold SearchBuild, mbind, M_bind.
    rewrite (retrying_panics _ _ _ _ _ (Hdo _ _ _ _)). reflexivity.
  - unfold GetQueuedBuilds, mbind, M_bind.
    rewrite (retrying_panics _ _ _ _ _ (Hdo _ _ _ _)). reflexivity.
  - unfold GetBuild, mbind, M_bind.
    rewrite (retrying_panics _ _ _ _ _ (Hdo _ _ _ _)). reflexivity.
  - unfold GetBuildID, mbind, M_bind.
    rewrite (retrying_panics _ _ _ _ _ (Hdo _ _ _ _)). reflexivity.
  - unfold GetBuildProperties, mbind, M_bind.
    rewrite (retrying_panics _ _ _ _ _ (Hdo _ _ _ _)). reflexivity.
  - unfold GetChanges, mbind, M_bind. rewrite Hdo. reflexivity.
  - unfold GetProblems, mbind, M_bind. rewrite Hdo. reflexivity.
  - unfold GetTests, mbind, M_bind. rewrite Hdo. reflexivity.
  - unfold CancelBuild, mbind, M_bind. rewrite Hdo. reflexivity.
  - unfold GetBuildLog, mbind, M_bind.
    rewrite (doNotJSONRequest_panics _ _ None s Hbad). reflexivity.
Qed.
End Crashes.

(** ** Recovery and its cost *)

Section Recovery.
Context {E : Env}.

Lemma reply_after_trace method path body retries i k s b s1 :
  reply_after method path body retries i k s b s1 ->
  this s1 = this s /\
  exists new, trace s1 = (trace s ++ new)%list /\ sent new = S k.
Proof.
  induction 1 as [i s b n' Hrep|i k s e n' b s' Hrep _ IH].
  - split; [reflexivity|].
    exists (debug_print (this s) path ++
            [EvSent (the_request (this s) method path body)])%list.
    split; [reflexivity|]. rewrite sent_app, sent_debug_print. reflexivity.
  - destruct IH as (Hthis & new & Hnew & Hsent).
    split; [exact Hthis|].
    exists (debug_print (this s) path ++
            [EvSent (the_request (this s) method path body)] ++
            [EvLog (RetryLine i retries e)] ++ new)%list.
    split.
    + rewrite Hnew. unfold log_Printf, Logger_State, after_reply. cbn [trace].
      rewrite <- !app_assoc. reflexivity.
    + rewrite !sent_app, sent_debug_print, Hsent. reflexivity.
Qed.

(** X13. The retry loop stops at the first attempt that succeeds: when the
    transport fails [k < 8] attempts and the next reply decodes, an
    operation under the retry policy has sent exactly [k + 1] requests, and
    it leaves the state of that last exchange, with the payload in the
    scratch file. *)
Theorem retry_stops_at_first_success (s s1 : State) (k : nat) (body : bytes) :
  (k < 8)%nat ->
  (forall method path data,
     reply_after method path data 8 0 k s body s1 ->
     sent (trace (written s1 body)) = (sent (trace s) + S k)%nat) /\
  (forall bt br props t,
     reply_after "POST" QueueBuild_path
       (Some (json_Marshal (marshal_jsonQuery (QueueBuild_query bt br props))))
       8 0 k s body s1 ->
     Unmarshal_Build body (Some Build_zero) = (None, t) ->
     (QueueBuild bt br props s).2 = written s1 body) /\
  (forall locator t,
     reply_after "GET" (SearchBuild_path locator) None 8 0 k s body s1 ->
     Unmarshal_respStruct body (mkRespStruct 0 None) = (None, t) ->
     (SearchBuild locator s).2 = written s1 body) /\
  (forall locator t,
     reply_after "GET" (GetQueuedBuilds_path locator) None 8 0 k s body s1 ->
     Unmarshal_respStruct body (mkRespStruct 0 None) = (None, t) ->
     (GetQueuedBuilds locator s).2 = written s1 body) /\
  (forall buildID t,
     reply_after "GET" (GetBuild_path buildID) None 8 0 k s body s1 ->
     Unmarshal_Build body None = (None, t) ->
     (GetBuild buildID s).2 = written s1 body) /\
  (forall bt br n t,
     reply_after "GET" (GetBuildID_path bt br n) None 8 0 k s body s1 ->
     Unmarshal_builds body None = (None, t) ->
     (GetBuildID bt br n s).2 = written s1 body) /\
  (forall buildID t,
     reply_after "GET" (GetBuildProperties_path buildID) None 8 0 k s body s1 ->
     Unmarshal_response body (mkResponse None) = (None, t) ->
     (GetBuildProperties buildID s).2 = written s1 body).
Proof.
  intros Hk. repeat split.
  - intros method path data Hrep.
    destruct (reply_after_trace _ _ _ _ _ _ _ _ _ Hrep) as (_ & new & Hnew & Hsent).
    unfold written. cbn [trace]. rewrite Hnew, !sent_app, Hsent. cbn. lia.
  - intros bt br props t Hrep Hdec. unfold QueueBuild, mbind, M_bind.
    rewrite (retrying_decodes s "POST" _ (Some _) k body s1 _ _ t Hrep Hk Hdec).
    cbn beta iota. unfold lift. destruct (call_convertInputs t); reflexivity.
  - intros locator t Hrep Hdec. unfold SearchBuild, mbind, M_bind.
    rewrite (retrying_decodes s "GET" _ None k body s1 _ _ t Hrep Hk Hdec).
    cbn beta iota. unfold lift. destruct (convert_builds (rs_Build t)); reflexivity.
  - intros locator t Hrep Hdec. unfold GetQueuedBuilds, mbind, M_bind.
    rewrite (retrying_decodes s "GET" _ None k body s1 _ _ t Hrep Hk Hdec).
    cbn beta iota. unfold lift. destruct (convert_builds (rs_Build t)); reflexivity.
  - intros buildID t Hrep Hdec. unfold GetBuild, mbind, M_bind.
    rewrite (retrying_decodes s "GET" _ None k body s1 _ _ t Hrep Hk Hdec).
    destruct t; reflexivity.
  - intros bt br n t Hrep Hdec. unfold GetBuildID, mbind, M_bind.
    rewrite (retrying_decodes s "GET" _ None k body s1 _ _ t Hrep Hk Hdec).
    destruct t as [bs|]; [|reflexivity]. cbn beta iota.
    destruct (elems (bs_Build bs)); reflexivity.
  - intros buildID t Hrep Hdec. unfold GetBuildProperties, mbind, M_bind.
    rewrite (retrying_decodes s "GET" _ None k body s1 _ _ t Hrep Hk Hdec).
    reflexivity.
Qed.

(** A unit of work on a reply that never decodes. *)
Lemma doRequest_answers_undecodable {T} cl Inv b method path data
    (unmarshal : bytes -> T -> option error * T) x s :
  answers_with cl Inv b s ->
  NewRequest_ok method (addProtocol (this s) path) = true ->
  undecodable unmarshal b ->
  exists cause x' s',
    doRequest method path data (Some unmarshal) x s =
      (Ret (Some (Errorf_unmarshal cause (truncate (bytes_string b) 1000)), x'), s') /\
    this s' = this s /\ answers_with cl Inv b s' /\
    sent (trace s') = S (sent (trace s)).
Proof.
  intros (Hcl & HI & Hans) Hok Hund.
  destruct (Hans (the_request (this s) method path (json_Marshal <$> data)) (net s) HI)
    as (n' & Hdo & HI').
  destruct (Hund x) as (cause & x' & Hdec).
  exists cause, x', (written (after_reply s method path (json_Marshal <$> data) n') b).
  split.
  - apply doRequest_undecodable; [|exact Hdec]. exists cl. auto.
  - split; [reflexivity|]. split; [repeat split; assumption|].
    unfold written. cbn [trace]. rewrite sent_app, sent_after_reply. cbn. lia.
Qed.

Lemma withRetry_loop_undecodable {T} cl Inv b method path data
    (unmarshal : bytes -> T -> option error * T) c :
  NewRequest_ok method (addProtocol c path) = true ->
  undecodable unmarshal b ->
  forall n i err x s,
    this s = c -> answers_with cl Inv b s ->
    exists err' x' s',
      withRetry_loop n i 8 (closure (doRequest method path data (Some unmarshal)))
        err (x, s) = (Ret err', (x', s')) /\
      sent (trace s') = (sent (trace s) + n)%nat /\
      (n <> O ->
       exists cause,
         err' = Some (Errorf_unmarshal cause (truncate (bytes_string b) 1000))).
Proof.
  intros Hok Hund. induction n as [|n IH]; intros i err x s Hs Hans;
    cbn [withRetry_loop].
  - exists err, x, s. split; [reflexivity|]. split; [lia|congruence].
  - subst c.
    destruct (doRequest_answers_undecodable cl Inv b method path data unmarshal x s
                Hans Hok Hund) as (cause & x1 & s1 & Hcall & Hthis & Hans1 & Hsent).
    unfold closure at 1. cbn [fst snd]. rewrite Hcall.
    change (log_Printf
              (RetryLine i 8
                 (Errorf_unmarshal cause (truncate (bytes_string b) 1000))) (x1, s1))
      with (x1, log_Printf
                  (RetryLine i 8
                     (Errorf_unmarshal cause (truncate (bytes_string b) 1000))) s1).
    destruct (IH (i + 1)
                (Some (Errorf_unmarshal cause (truncate (bytes_string b) 1000))) x1
                (log_Printf
                   (RetryLine i 8
                      (Errorf_unmarshal cause (truncate (bytes_string b) 1000))) s1))
      as (err' & x' & s' & Hl & Hn & Hsome).
    { exact Hthis. }
    { exact Hans1. }
    exists err', x', s'. split; [exact Hl|]. split.
    + rewrite Hn. unfold log_Printf, Logger_State. cbn [trace].
      rewrite sent_app. cbn. lia.
    + intros _. destruct n as [|n].
      * cbn [withRetry_loop] in Hl. injection Hl as <- _ _. eauto.
      * apply Hsome. discriminate.
Qed.

Lemma retrying_undecodable {T} cl Inv b method path data
    (unmarshal : bytes -> T -> option error * T) x s :
  answers_with cl Inv b s ->
  NewRequest_ok method (addProtocol (this s) path) = true ->
  undecodable unmarshal b ->
  exists cause x' s',
    retrying 8 (doRequest method path data (Some unmarshal)) x s =
      (Ret (Some (Errorf_unmarshal cause (truncate (bytes_string b) 1000)), x'), s') /\
    sent (trace s') = (sent (trace s) + 8)%nat.
Proof.
  intros Hans Hok Hund. unfold retrying, withRetry.
  destruct (withRetry_loop_undecodable cl Inv b method path data unmarshal (this s)
              Hok Hund (Z.to_nat 8) 0 None x s eq_refl Hans)
    as (err' & x' & s' & Hl & Hn & Hsome).
  destruct Hsome as [cause ->]; [discriminate|].
  exists cause, x', s'. rewrite Hl. split; [reflexivity|exact Hn].
Qed.

(** X14. A reply that does not decode is retried like a failure of the
    transport: when the server keeps answering with a payload that the
    decoder refuses, an operation under the retry policy sends 8 requests
    and returns the wrapped decoding error, with a nil result (the
    placeholder "ID not found" for [GetBuildID]). *)
Theorem decode_errors_retried (cl : http_Client) (Inv : netstate -> Prop)
    (b : bytes) (s : State) :
  answers_with cl Inv b s ->
  (forall bt br props,
     NewRequest_ok "POST" (addProtocol (this s) QueueBuild_path) = true ->
     undecodable Unmarshal_Build b ->
     exists cause s',
       QueueBuild bt br props s =
         (Ret (None, Some (Errorf_unmarshal cause (truncate (bytes_string b) 1000))),
          s') /\
       sent (trace s') = (sent (trace s) + 8)%nat) /\
  (forall locator,
     NewRequest_ok "GET" (addProtocol (this s) (SearchBuild_path locator)) = true ->
     undecodable Unmarshal_respStruct b ->
     exists cause s',
       SearchBuild locator s =
         (Ret (None, Some (Errorf_unmarshal cause (truncate (bytes_string b) 1000))),
          s') /\
       sent (trace s') = (sent (trace s) + 8)%nat) /\
  (forall locator,
     NewRequest_ok "GET" (addProtocol (this s) (GetQueuedBuilds_path locator))
       = true ->
     undecodable Unmarshal_respStruct b ->
     exists cause s',
       GetQueuedBuilds locator s =
         (Ret (None, Some (Errorf_unmarshal cause (truncate (bytes_string b) 1000))),
          s') /\
       sent (trace s') = (sent (trace s) + 8)%nat) /\
  (forall buildID,
     NewRequest_ok "GET" (addProtocol (this s) (GetBuild_path buildID)) = true ->
     undecodable Unmarshal_Build b ->
     exists cause s',
       GetBuild buildID s =
         (Ret (None, Some (Errorf_unmarshal cause (truncate (bytes_string b) 1000))),
          s') /\
       sent (trace s') = (sent (trace s) + 8)%nat) /\
  (forall bt br n,
     NewRequest_ok "GET" (addProtocol (this s) (GetBuildID_path bt br n)) = true ->
     undecodable Unmarshal_builds b ->
     exists cause s',
       GetBuildID bt br n s =
         (Ret ("ID not found",
               Some (Errorf_unmarshal cause (truncate (bytes_string b) 1000))),
          s') /\
       sent (trace s') = (sent (trace s) + 8)%nat) /\
  (forall buildID,
     NewRequest_ok "GET" (addProtocol (this s) (GetBuildProperties_path buildID))
       = true ->
     undecodable Unmarshal_response b ->
     exists cause s',
       GetBuildProperties buildID s =
         (Ret (None, Some (Errorf_unmarshal cause (truncate (bytes_string b) 1000))),
          s') /\
       sent (trace s') = (sent (trace s) + 8)%nat).
Proof.
  intros Hans. repeat split.
  - intros bt br props Hok Hund.
    destruct (retrying_undecodable cl Inv b "POST" _
                (Some (marshal_jsonQuery (QueueBuild_query bt br props)))
                Unmarshal_Build (Some Build_zero) s Hans Hok Hund)
      as (cause & x' & s' & Hr & Hn).
    exists cause, s'. split; [|exact Hn].
    unfold QueueBuild, mbind, M_bind. rewrite Hr. reflexivity.
  - intros locator Hok Hund.
    destruct (retrying_undecodable cl Inv b "GET" _ None Unmarshal_respStruct
                (mkRespStruct 0 None) s Hans Hok Hund)
      as (cause & x' & s' & Hr & Hn).
    exists cause, s'. split; [|exact Hn].
    unfold SearchBuild, mbind, M_bind. rewrite Hr. reflexivity.
  - intros locator Hok Hund.
    destruct (retrying_undecodable cl Inv b "GET" _ None Unmarshal_respStruct
                (mkRespStruct 0 None) s Hans Hok Hund)
      as (cause & x' & s' & Hr & Hn).
    exists cause, s'. split; [|exact Hn].
    unfold GetQueuedBuilds, mbind, M_bind. rewrite Hr. reflexivity.
  - intros buildID Hok Hund.
    destruct (retrying_undecodable cl Inv b "GET" _ None Unmarshal_Build None s
                Hans Hok Hund) as (cause & x' & s' & Hr & Hn).
    exists cause, s'. split; [|exact Hn].
    unfold GetBuild, mbind, M_bind. rewrite Hr. reflexivity.
  - intros bt br n Hok Hund.
    destruct (retrying_undecodable cl Inv b "GET" _ None Unmarshal_builds None s
                Hans Hok Hund) as (cause & x' & s' & Hr & Hn).
    exists cause, s'. split; [|exact Hn].
    unfold GetBuildID, mbind, M_bind. rewrite Hr. reflexivity.
  - intros buildID Hok Hund.
    destruct (retrying_undecodable cl Inv b "GET" _ None Unmarshal_response
                (mkResponse None) s Hans Hok Hund) as (cause & x' & s' & Hr & Hn).
    exists cause, s'. split; [|exact Hn].
    unfold GetBuildProperties, mbind, M_bind. rewrite Hr. reflexivity.
Qed.
End Recovery.

(** ** Empty fields of the queue-build body *)

Section OmitEmpty.
Context {E : Env}.

(** X15. The queue-build body leaves out what is empty: with an empty
    branch name there is no branchName member, with an empty build type id
    no buildTypeId member, and with no properties the properties member is
    an empty object; personal is "true" in every case. *)
Theorem QueueBuild_omits_empty (bt : string) (M : gmap string string) :
  exists entries : list (string * string),
    entries ≡ₚ map_to_list M /\
    marshal_jsonQuery (QueueBuild_query bt "" M) =
      JObject ((if String.eqb bt "" then [] else [("buildTypeId", JString bt)]) ++
               [("properties",
                 JObject match entries with
                         | [] => []
                         | _ => [("property", JArray (List.map entry entries))]
                         end);
                ("personal", JString "true")]) /\
    (M = ∅ -> entries = []).
Proof.
  exists (range_map M). split; [apply range_map_perm|]. split.
  - unfold QueueBuild_query. cbn [String.eqb negb].
    rewrite QueueBuild_query_fold.
    cbn [jq_BuildTypeID jq_Properties_Property jq_BranchName jq_Personal].
    unfold marshal_jsonQuery.
    cbn [jq_BuildTypeID jq_Properties_Property jq_BranchName jq_Personal].
    unfold omitempty_string. cbn [String.eqb Ascii.eqb].
    unfold omitempty_slice.
    destruct (range_map M) as [|kv l]; [reflexivity|].
    cbn [elems List.map app]. rewrite List.map_map. reflexivity.
  - intros ->. apply Permutation_nil_r.
    rewrite range_map_perm, map_to_list_empty. reflexivity.
Qed.
End OmitEmpty.

(** ** The id of the first match *)

Section FirstMatch.
Context {E : Env}.

(** X17. When the reply decodes to a build list that is not empty,
    [GetBuildID] returns the id of its first build in decimal, with the nil
    error, whatever the builds after it and the count say; the id can be
    read back from the string, two ids with the same string being equal.
    When the reply decodes to no record, it returns the placeholder
    "ID not found" with the error "build not found".  The reply may come at
    any of the 8 attempts, the transport having failed the ones before. *)
Theorem GetBuildID_first_match (s s1 : State) (bt br n : string) (k : nat)
    (body : bytes) :
  reply_after "GET" (GetBuildID_path bt br n) None 8 0 k s body s1 ->
  (k < 8)%nat ->
  (forall bs b0 rest,
     Unmarshal_builds body None = (None, Some bs) ->
     elems (bs_Build bs) = b0 :: rest ->
     (GetBuildID bt br n s).1 = Ret (pretty (Build_ID b0), None) /\
     forall id : Z, pretty id = pretty (Build_ID b0) -> id = Build_ID b0) /\
  (Unmarshal_builds body None = (None, None) ->
   (GetBuildID bt br n s).1 =
     Ret ("ID not found", Some (errors_New "build not found"))).
Proof.
  intros Hrep Hk.
  destruct (GetBuildID_outcomes s bt br n k body s1 Hrep Hk) as [Hfirst Hnil].
  split; [|exact Hnil].
  intros bs b0 rest Hdec Hlist. split; [exact (Hfirst bs b0 rest Hdec Hlist)|].
  intros id Hid. apply (inj pretty) in Hid. exact Hid.
Qed.
End FirstMatch.

(** ** The order of the effects of one exchange *)

Section Exchange.
Context {E : Env}.

(** The state after a unit of work whose request is answered. *)
Lemma doRequest_state {T} s method path data r n'
    (v : option (bytes -> T -> option error * T)) (target : T) :
  replies s method path (json_Marshal <$> data) r n' ->
  (doRequest method path data v target s).2 =
    match r with
    | Response b None =>
        written (after_reply s method path (json_Marshal <$> data) n') b
    | _ => after_reply s method path (json_Marshal <$> data) n'
    end.
Proof.
  intros Hrep. destruct r as [e|b [e|]].
  - rewrite (doRequest_fails _ _ _ _ _ _ v target Hrep). reflexivity.
  - rewrite (doRequest_read_error _ _ _ _ _ _ _ v target Hrep). reflexivity.
  - destruct v as [unmarshal|].
    + destruct (unmarshal b target) as [[cause|] t'] eqn:Hdec.
      * rewrite (doRequest_undecodable _ _ _ _ _ _ unmarshal target t' cause
                   Hrep Hdec).
        reflexivity.
      * rewrite (doRequest_decodes _ _ _ _ _ _ unmarshal target t' Hrep Hdec).
        reflexivity.
    + rewrite (doRequest_undecoded _ _ _ _ _ _ target Hrep). reflexivity.
Qed.

(** The debug flag has no part in the request. *)
Lemma replies_SetDebug s d method path body r n' :
  replies s method path body r n' ->
  replies (SetDebug d s).2 method path body r n'.
Proof. intros (cl & Hcl & Hok & Hdo). exists cl. repeat split; assumption. Qed.

(** X18. The effects of an operation outside the retry policy, run after
    [SetDebug d], come in this order: the print of the resolved URL if [d]
    is true, the one request, and the write of the payload to the scratch
    file if it was read without error (never for [GetBuildLog]); the write
    does not depend on the debug flag. *)
Theorem exchange_effects_in_order (op : call) (s : State) (d : bool)
    (method path : string) (r : HttpResult bytes) (n' : netstate) :
  request_line op = Some (method, path) ->
  attempts_when_down op = 1%nat ->
  replies s method path (json_Marshal <$> request_body op) r n' ->
  trace (exec op (SetDebug d s).2).2 =
    (trace s ++
     (if d then [EvPrintf (addProtocol (this s) path)] else []) ++
     [EvSent (the_request (this s) method path (json_Marshal <$> request_body op))] ++
     match r, op with
     | Response b None, CallGetBuildLog _ => []
     | Response b None, _ => [EvWriteFile b]
     | _, _ => []
     end)%list /\
  net (exec op (SetDebug d s).2).2 = n'.
Proof.
  intros Hline Hsingle Hrep. apply (replies_SetDebug s d) in Hrep.
  assert (Hjson : forall T A data (v : option (bytes -> T -> option error * T)) target
                    (k : option error * T -> M State A),
            request_body op = data ->
            (forall id, op <> CallGetBuildLog id) ->
            (forall a s1, (k a s1).2 = s1) ->
            let s2 := (forget (doRequest method path data v target ≫= k)
                         (SetDebug d s).2).2 in
            trace s2 =
              (trace s ++
               (if d then [EvPrintf (addProtocol (this s) path)] else []) ++
               [EvSent (the_request (this s) method path
                          (json_Marshal <$> request_body op))] ++
               match r, op with
               | Response b None, CallGetBuildLog _ => []
               | Response b None, _ => [EvWriteFile b]
               | _, _ => []
               end)%list /\
            net s2 = n').
  { intros T A data v target k Hbody Hlog Hk. cbv zeta. unfold forget.
    rewrite bind_pure_tail by reflexivity. rewrite bind_pure_tail by exact Hk.
    subst data. rewrite (doRequest_state _ _ _ _ r n' v target Hrep).
    assert (Hfile : match r, op with
                    | Response b None, CallGetBuildLog _ => []
                    | Response b None, _ => [EvWriteFile b]
                    | _, _ => []
                    end =
                    match r with
                    | Response b None => [EvWriteFile b]
                    | _ => []
                    end).
    { destruct r as [e|b [e|]]; try reflexivity.
      destruct op; try reflexivity. destruct (Hlog buildID eq_refl). }
    rewrite Hfile.
    destruct r as [e|b [e|]]; destruct d; cbn; rewrite <- ?app_assoc;
      split; reflexivity. }
  destruct op; cbn [request_line] in Hline; try discriminate Hline;
    injection Hline as <- <-; cbn [attempts_when_down] in Hsingle;
    try discriminate Hsingle; cbn [exec].
  - apply Hjson; [reflexivity|discriminate|].
    intros [[e|] b] s1; [reflexivity|]. destruct (ch_Change b); reflexivity.
  - apply Hjson; [reflexivity|discriminate|].
    intros [[e|] b] s1; [reflexivity|].
    destruct (pr_ProblemOccurrence b); reflexivity.
  - apply Hjson; [reflexivity|discriminate|].
    intros [[e|] b] s1; reflexivity.
  - apply Hjson; [reflexivity|discriminate|].
    intros [e u] s1; reflexivity.
  - unfold forget, GetBuildLog. rewrite bind_pure_tail by reflexivity.
    rewrite bind_pure_tail by (intros [cnt err] s1; reflexivity).
    rewrite (doNotJSONRequest_replies _ "GET" _ None r n' Hrep).
    destruct r as [e|b [e|]]; destruct d; cbn; rewrite <- ?app_assoc;
      split; reflexivity.
Qed.

(** X19. A client fresh from [New] sends the credentials and goes to the
    host it was made with, and it prints nothing: every request of any
    operation on it has the username and password given to [New] as basic
    authentication and the URL resolved from the host given to [New]. *)
Theorem fresh_client_requests (DefaultClient : http_Client)
    (host username password : string) (n : netstate) (op : call) :
  let c := New DefaultClient host username password in
  let s' := (exec op (mkState c n [])).2 in
  (forall req, In (EvSent req) (trace s') ->
     req_basicAuth req = Some (username, password) /\
     exists method path,
       request_line op = Some (method, path) /\
       req_method req = method /\ req_url req = addProtocol c path) /\
  (forall authURL, ~ In (EvPrintf authURL) (trace s')).
Proof.
  cbv zeta.
  destruct (exec_footprint op (mkState (New DefaultClient host username password) n []))
    as (new & Hnew & Hall).
  cbn [trace this app] in Hnew, Hall. rewrite Hnew.
  rewrite Forall_forall in Hall. unfold footprint in Hall. split.
  - intros req Hin. apply list_elem_of_In in Hin. specialize (Hall _ Hin).
    destruct (request_line op) as [[method path]|]; [|destruct Hall].
    subst req. split; [reflexivity|]. exists method, path. repeat split.
  - intros u Hin. apply list_elem_of_In in Hin. specialize (Hall _ Hin).
    destruct (request_line op) as [[method path]|]; [|destruct Hall].
    destruct Hall as [Hdebug _]. discriminate Hdebug.
Qed.
End Exchange.

(** ** The test double *)


(** ** The further properties at work on the test double *)

Lemma refused_replies method path data :
  replies (E:=MockEnv) refused method path data
    (DoError (foreign "connection refused"))
    (mkMockTransport
       (Some (the_request (E:=MockEnv) (this refused) method path data))
       None (Some (foreign "connection refused"))).
Proof. exists RoundTrip. repeat split. Qed.

Lemma refused_failing method path data :
  exists s',
    failing (E:=MockEnv) method path data 8 0
      (replicate 8 (foreign "connection refused")) refused s'.
Proof.
  eexists.
  do 8 (eapply failing_cons; [exists RoundTrip; repeat split|]).
  apply failing_nil.
Qed.

(** The test client on which every read finds an empty body. *)
Lemma empty_body_answers :
  answers_with (E:=MockEnv) RoundTrip
    (fun n : MockTransport => mt_err n = None /\ mt_resp n = Some None)
    (@bytes_empty MockEnv)
    (NewTestClient (Some None) None).
Proof.
  split; [reflexivity|]. split; [split; reflexivity|].
  intros req n [Herr Hresp]. unfold RoundTrip. rewrite Herr, Hresp.
  eexists. split; [reflexivity|]. split; reflexivity.
Qed.

Lemma mock_undecodable_empty {T} (dec : json -> T -> option T) :
  undecodable (E:=MockEnv) (mock_Unmarshal dec) (@bytes_empty MockEnv).
Proof. intros t. eexists _, _. reflexivity. Qed.

Lemma truncate_prefix_bound_witness :
  0 <= 3 /\
  (exists rest, "abcdef" = truncate "abcdef" 3 +:+ rest) /\
  Z.of_nat (String.length (truncate "abcdef" 3)) =
    Z.min (Z.of_nat (String.length "abcdef")) 3 /\
  (Z.of_nat (String.length "abcdef") <= 3 -> truncate "abcdef" 3 = "abcdef").
Proof.
  split; [lia|]. apply (truncate_prefix_bound "abcdef" 3). lia.
Defined.

Lemma withRetry_bounded_witness :
  (0 <= 3 <= 0 + Z.to_nat 8)%nat /\
  (8%nat = (0 + Z.to_nat 8)%nat /\ 0 < 8).
Proof.
  split.
  - assert (Hrun : withRetry 8 (counted (flaky 3)) (O, (O, [])) =
                   (Ret None,
                    (3%nat, (withRetry 8 (counted (flaky 3)) (O, (O, []))).2.2)))
      by reflexivity.
    exact (proj1 (withRetry_bounded (flaky 3) 8 O (O, []) _ _ _ Hrun)).
  - assert (Hrun : withRetry 8 (counted (flaky 9)) (O, (O, [])) =
                   (Ret (Some (foreign "attempt 8")),
                    (8%nat, (withRetry 8 (counted (flaky 9)) (O, (O, []))).2.2)))
      by reflexivity.
    exact (proj2 (proj2 (withRetry_bounded (flaky 9) 8 O (O, []) _ _ _ Hrun))
             (foreign "attempt 8") eq_refl).
Defined.

Lemma single_shot_errors_witness :
  (GetChanges (E:=MockEnv) "/httpAuth/app/rest/changes?locator=build:(id:42)"
     refused).1 = Ret (None, Some (foreign "connection refused")) /\
  (CancelBuild (E:=MockEnv) 42 "stop" refused).1 =
    Ret (Some (foreign "connection refused")) /\
  (GetBuildLog (E:=MockEnv) "42" refused).1 =
    Ret ("", Some (foreign "connection refused")).
Proof.
  pose proof (single_shot_errors (E:=MockEnv) refused
                (DoError (foreign "connection refused"))
                (foreign "connection refused")) as Hthm.
  split; [|split].
  - rewrite (proj1 (Hthm _ (or_introl eq_refl)) _ (refused_replies _ _ _)).
    reflexivity.
  - rewrite (proj1 (proj2 (proj2 (proj2 (Hthm _ (or_introl eq_refl))))) 42 "stop"
               (refused_replies _ _ _)).
    reflexivity.
  - rewrite (proj2 (proj2 (proj2 (proj2 (Hthm _ (or_introl eq_refl))))) "42"
               (refused_replies _ _ _)).
    reflexivity.
Defined.

Lemma decode_error_snippet_witness :
  exists snippet,
    (String.length snippet <= 1000)%nat /\
    (GetChanges (E:=MockEnv) "/httpAuth/app/rest/changes?locator=build:(id:42)"
       (NewTestClient (newResponse doc_array) None)).1 =
      Ret (None, Some (Errorf_unmarshal (foreign "json: cannot unmarshal") snippet)).
Proof.
  destruct (decode_error_snippet (E:=MockEnv)
              (NewTestClient (newResponse doc_array) None) (Some doc_array)
              (foreign "json: cannot unmarshal")
              (mkMockTransport
                 (Some (the_request (E:=MockEnv)
                          (this (NewTestClient (newResponse doc_array) None)) "GET"
                          (GetChanges_path
                             "/httpAuth/app/rest/changes?locator=build:(id:42)")
                          None))
                 (Some None) None))
    as (snippet & _ & Hlen & Hchanges & _).
  exists snippet. split; [exact Hlen|].
  rewrite (Hchanges _ (mkChanges None) (NewTestClient_replies _ _ _ _) eq_refl).
  reflexivity.
Defined.

Lemma undecoded_replies_witness :
  (CancelBuild (E:=MockEnv) 42 "stop"
     (NewTestClient (newResponse doc_array) None)).1 = Ret None /\
  (GetBuildLog (E:=MockEnv) "42"
     (NewTestClient (newResponse doc_array) None)).1 = Ret ("[]", None).
Proof.
  split.
  - rewrite (proj1 (undecoded_replies (E:=MockEnv)
                      (NewTestClient (newResponse doc_array) None)
                      (Some doc_array) _) 42 "stop" (NewTestClient_replies _ _ _ _)).
    reflexivity.
  - rewrite (proj2 (undecoded_replies (E:=MockEnv)
                      (NewTestClient (newResponse doc_array) None)
                      (Some doc_array) _) "42" (NewTestClient_replies _ _ _ _)).
    reflexivity.
Defined.

Lemma present_lists_returned_witness :
  (GetChanges (E:=MockEnv) "/httpAuth/app/rest/changes?locator=build:(id:42)"
     (NewTestClient (newResponse doc_no_changes) None)).1 = Ret (Some [], None) /\
  (GetProblems (E:=MockEnv)
     "/httpAuth/app/rest/problemOccurrences?locator=build:(id:42)" 10
     (NewTestClient (newResponse doc_empty) None)).1 =
    Ret (None, Some (errors_New "problemOccurrence list not found")).
Proof.
  split.
  - eapply (proj1 (present_lists_returned (E:=MockEnv)
                     (NewTestClient (newResponse doc_no_changes) None)
                     (Some doc_no_changes) _)
              _ (mkChanges (Some [])) []).
    + apply NewTestClient_replies.
    + reflexivity.
    + reflexivity.
  - eapply (proj2 (proj2 (present_lists_returned (E:=MockEnv)
                            (NewTestClient (newResponse doc_empty) None)
                            (Some doc_empty) _))
              _ 10 (mkProblems 0 false None)).
    + apply NewTestClient_replies.
    + reflexivity.
    + reflexivity.
Defined.

Lemma retry_exhausted_witness :
  (GetBuild (E:=MockEnv) "42" refused).1 =
    Ret (None, Some (foreign "connection refused")) /\
  (GetBuildID (E:=MockEnv) "bt" "master" "17" refused).1 =
    Ret ("ID not found", Some (foreign "connection refused")).
Proof.
  split.
  - destruct (refused_failing "GET" (GetBuild_path "42") None) as [s' Hfail].
    rewrite (proj1 (proj2 (proj2 (proj2
               (retry_exhausted (E:=MockEnv) refused s'
                  (replicate 8 (foreign "connection refused"))
                  (foreign "connection refused") eq_refl eq_refl)))) "42" Hfail).
    reflexivity.
  - destruct (refused_failing "GET" (GetBuildID_path "bt" "master" "17") None)
      as [s' Hfail].
    rewrite (proj1 (proj2 (proj2 (proj2 (proj2
               (retry_exhausted (E:=MockEnv) refused s'
                  (replicate 8 (foreign "connection refused"))
                  (foreign "connection refused") eq_refl eq_refl)))))
               "bt" "master" "17" Hfail).
    reflexivity.
Defined.

Lemma decoded_builds_converted_witness :
  (SearchBuild (E:=MockEnv) "branch:master"
     (NewTestClient (newResponse doc_one_build) None)).1 =
    Ret (Some [Some (mkMockBuild 42)], None) /\
  (GetBuild (E:=MockEnv) "42"
     (NewRecoveringClient (JObject [("id", JNumber 42)]))).1 =
    Ret (Some (mkMockBuild 42), None).
Proof.
  split.
  - eapply (proj1 (proj2 (decoded_builds_converted (E:=MockEnv)
                            (NewTestClient (newResponse doc_one_build) None) _ O
                            (Some doc_one_build) ltac:(lia)))
              "branch:master" (mkRespStruct 1 (Some [Some (mkMockBuild 42)]))
              [mkMockBuild 42]).
    + apply reply_now, NewTestClient_replies.
    + reflexivity.
    + reflexivity.
  - destruct (NewRecoveringClient_reply_after (JObject [("id", JNumber 42)]) "GET"
                (GetBuild_path "42") None) as [s1 Hrep].
    apply (proj2 (proj2 (proj2 (proj2
             (decoded_builds_converted (E:=MockEnv)
                (NewRecoveringClient (JObject [("id", JNumber 42)])) s1 1%nat
                (Some (JObject [("id", JNumber 42)])) ltac:(lia)))))
             "42" (mkMockBuild 42) Hrep).
    reflexivity.
Defined.

Lemma crashes_without_transport_or_url_witness :
  (exec (E:=MockEnv) (CallGetBuild "42") no_transport).1 =
    Panic "invalid memory address or nil pointer dereference" /\
  sent (trace (exec (E:=MockEnv) (CallGetBuild "42") no_transport).2) = 0%nat.
Proof.
  rewrite (crashes_without_transport_or_url (E:=MockEnv) (CallGetBuild "42")
             no_transport "GET" (GetBuild_path "42") eq_refl (or_introl eq_refl)).
  split; reflexivity.
Defined.

Lemma retry_stops_at_first_success_witness :
  sent (trace (GetBuildProperties (E:=MockEnv) "42"
                 (NewRecoveringClient doc_properties)).2) = 2%nat.
Proof.
  destruct (NewRecoveringClient_reply_after doc_properties "GET"
              (GetBuildProperties_path "42") None) as [s1 Hrep].
  pose proof (retry_stops_at_first_success (E:=MockEnv)
                (NewRecoveringClient doc_properties) s1 1%nat
                (Some doc_properties) ltac:(lia)) as (Hsent & _ & _ & _ & _ & _ & Hprops).
  rewrite (Hprops "42"
             (mkResponse (Some [mkOneProperty "a" "1"; mkOneProperty "a" "2"]))
             Hrep eq_refl).
  rewrite (Hsent _ _ _ Hrep). reflexivity.
Defined.

Lemma decode_errors_retried_witness :
  exists cause s',
    GetBuildProperties (E:=MockEnv) "42" (NewTestClient (Some None) None) =
      (Ret (None, Some (Errorf_unmarshal cause (truncate "" 1000))), s') /\
    sent (trace s') = 8%nat.
Proof.
  exact (proj2 (proj2 (proj2 (proj2 (proj2
           (decode_errors_retried (E:=MockEnv) RoundTrip _ (@bytes_empty MockEnv)
              (NewTestClient (Some None) None) empty_body_answers)))))
           "42" eq_refl (mock_undecodable_empty mock_dec_response)).
Defined.

Lemma GetBuildID_first_match_witness :
  (GetBuildID (E:=MockEnv) "bt" "master" "17"
     (NewTestClient (newResponse doc_one_build) None)).1 = Ret ("42", None) /\
  (GetBuildID (E:=MockEnv) "bt" "master" "17"
     (NewTestClient (newResponse JNull) None)).1 =
    Ret ("ID not found", Some (errors_New "build not found")).
Proof.
  split.
  - apply (proj1 (GetBuildID_first_match (E:=MockEnv)
                    (NewTestClient (newResponse doc_one_build) None) _
                    "bt" "master" "17" O (Some doc_one_build)
                    (reply_now _ _ _ _ _ _ _ _ (NewTestClient_replies _ _ _ _))
                    ltac:(lia))
             (mkBuilds 1 "" "" (Some [mkMockBuild 42])) (mkMockBuild 42) []
             eq_refl eq_refl).
  - apply (proj2 (GetBuildID_first_match (E:=MockEnv)
                    (NewTestClient (newResponse JNull) None) _
                    "bt" "master" "17" O (Some JNull)
                    (reply_now _ _ _ _ _ _ _ _ (NewTestClient_replies _ _ _ _))
                    ltac:(lia))).
    reflexivity.
Defined.

Lemma QueueBuild_omits_empty_witness :
  marshal_jsonQuery (QueueBuild_query (E:=MockEnv) "" "" ∅) =
    JObject [("properties", JObject []); ("personal", JString "true")].
Proof.
  destruct (QueueBuild_omits_empty (E:=MockEnv) "" ∅)
    as (entries & _ & Hdoc & Hempty).
  rewrite Hdoc, (Hempty eq_refl). reflexivity.
Defined.

Lemma requests_well_formed_witness :
  exists new,
    trace (exec (E:=MockEnv) (CallCancelBuild 42 "stop") refused).2 =
      (trace refused ++ new)%list /\
    forall req, In (EvSent req) new ->
      req_url req = "https://host.example.com/httpAuth/app/rest/id:42" /\
      req_basicAuth req = Some ("username", "password").
Proof.
  destruct (requests_well_formed (E:=MockEnv) (CallCancelBuild 42 "stop") refused)
    as (new & Hnew & Hreq).
  exists new. split; [exact Hnew|]. intros req Hin.
  destruct (Hreq req Hin) as (method & path & Hline & _ & Hurl & Hauth & _).
  injection Hline as <- <-. split; [exact Hurl|exact Hauth].
Defined.

Lemma side_effects_confined_witness :
  exists new,
    trace (exec (E:=MockEnv) (CallGetChanges "/changes?locator=build:(id:42)")
             refused).2 = (trace refused ++ new)%list /\
    (forall authURL, ~ In (EvPrintf authURL) new) /\
    (forall l, ~ In (EvLog l) new).
Proof.
  destruct (side_effects_confined (E:=MockEnv)
              (CallGetChanges "/changes?locator=build:(id:42)") refused)
    as (new & Hnew & Hprint & Hlog & _).
  exists new. split; [exact Hnew|]. split.
  - intros u Hin. destruct (Hprint u Hin) as [Hdebug _]. discriminate Hdebug.
  - intros l Hin. destruct (Hlog l Hin) as [Hretried _]. discriminate Hretried.
Defined.

Lemma exchange_effects_in_order_witness :
  trace (exec (E:=MockEnv) (CallCancelBuild 42 "stop")
           (SetDebug (E:=MockEnv) true
              (NewTestClient (newResponse doc_array) None)).2).2 =
    [EvPrintf "https://host.example.com/httpAuth/app/rest/id:42";
     EvSent (the_request (E:=MockEnv)
               (this (NewTestClient (newResponse doc_array) None)) "POST"
               (CancelBuild_path 42) (Some (Some (marshal_cancel "stop"))));
     EvWriteFile (Some doc_array)].
Proof.
  exact (proj1 (exchange_effects_in_order (E:=MockEnv) (CallCancelBuild 42 "stop")
                  (NewTestClient (newResponse doc_array) None) true
                  "POST" (CancelBuild_path 42) (Response (Some doc_array) None) _
                  eq_refl eq_refl (NewTestClient_replies _ _ _ _))).
Defined.

Lemma fresh_client_requests_witness :
  Forall (fun ev => match ev with
                    | EvSent req => req_basicAuth req = Some ("alice", "secret")
                    | EvPrintf _ => False
                    | _ => True
                    end)
    (trace (exec (E:=MockEnv) (CallGetBuild "42")
              (mkState (New (E:=MockEnv) RoundTrip "teamcity.example.com/"
                          "alice" "secret")
                 (mkMockTransport None None (Some (foreign "connection refused")))
                 [])).2).
Proof.
  pose proof (fresh_client_requests (E:=MockEnv) RoundTrip
                "teamcity.example.com/" "alice" "secret"
                (mkMockTransport None None (Some (foreign "connection refused")))
                (CallGetBuild "42")) as [Hreq Hprint].
  apply Forall_forall. intros ev Hin. apply list_elem_of_In in Hin.
  destruct ev as [req|u|l|b].
  - exact (proj1 (Hreq req Hin)).
  - exact (Hprint u Hin).
  - exact Logic.I.
  - exact Logic.I.
Defined.
